(** * web-async-service: the personal price-index task of [app/views.py]

    A shallow embedding of [calculate_personal_cpi] and [result_callback]
    together with the properties of the index calculation, its error
    handling and the reporting step.

    The Python code is dynamically typed and works on decoded JSON, so the
    embedding keeps Python values ([pyval]), Python's numeric tower on
    [int] (unbounded, [Z]) and [float] (IEEE binary64, [spec_float]), and
    exceptions.  Printing and HTTP calls are recorded in an explicit world
    that every effectful function threads; whether a value can be
    formatted and printed depends on the standard output, a parameter of
    the effectful code. *)

From Stdlib Require Import ZArith List String Bool Lia.
From Stdlib Require Import Floats.SpecFloat.
Import ListNotations.

Local Open Scope string_scope.
Local Open Scope list_scope.
Local Open Scope Z_scope.

Set Warnings "-register-all".

(* ================================================================== *)
(** ** Binary64 arithmetic *)

Module F64.

Definition prec : Z := 53.
Definition emax : Z := 1024.

Definition float := spec_float.

Definition zero : float := S754_zero false.

(** An integer as an exact, not yet rounded, binary number. *)
Definition exact (z : Z) : float :=
  match z with
  | Z0 => S754_zero false
  | Zpos p => S754_finite false p 0
  | Zneg p => S754_finite true p 0
  end.

(** Nearest binary64 value of an integer, ties to even. *)
Definition of_Z (z : Z) : float := binary_normalize prec emax z 0 false.

Definition add : float -> float -> float := SFadd prec emax.
Definition sub : float -> float -> float := SFsub prec emax.
Definition mul : float -> float -> float := SFmul prec emax.
Definition div : float -> float -> float := SFdiv prec emax.

(** Correctly rounded quotient of two integers. *)
Definition div_Z (a b : Z) : float := SFdiv prec emax (exact a) (exact b).

Definition eqb : float -> float -> bool := SFeqb.
Definition ltb : float -> float -> bool := SFltb.
Definition leb : float -> float -> bool := SFleb.

Definition is_zero (f : float) : bool := eqb f zero.

Definition is_inf (f : float) : bool :=
  match f with S754_infinity _ => true | _ => false end.

(** Nearest integer of [num / den] for [den > 0], ties to even. *)
Definition div_half_even (num den : Z) : Z :=
  let q := num / den in
  let r := num mod den in
  match 2 * r ?= den with
  | Lt => q
  | Gt => q + 1
  | Eq => if Z.even q then q else q + 1
  end.

(** [round(x, 2)] on a float: the exact binary value is rounded to two
    decimals (ties to even) and the decimal is read back as the nearest
    binary64 value; zeros, infinities and NaN are returned unchanged. *)
Definition round2 (x : float) : float :=
  match x with
  | S754_finite s m e =>
      let n :=
        match e with
        | Zneg p => div_half_even (Zpos m * 100) (Z.pow_pos 2 p)
        | _ => Zpos m * 100 * 2 ^ e
        end in
      match n with
      | Zpos p => SFdiv prec emax (S754_finite s p 0) (exact 100)
      | _ => S754_zero s
      end
  | _ => x
  end.

End F64.

(* ================================================================== *)
(** ** Python values, exceptions and operators *)

(** Values that [response.json()] can return, and that the code builds. *)
Inductive pyval :=
| VNone
| VBool (b : bool)
| VInt (z : Z)
| VFloat (f : F64.float)
| VStr (s : string)
| VList (l : list pyval)
| VDict (d : list (string * pyval)).

(** The exceptions that occur.  All of them derive from [Exception] but
    the last two; [RequestException] stands for the whole family of
    [requests.exceptions] (timeouts, connection and decoding errors), and
    [ValueError] includes its subclass [UnicodeEncodeError]. *)
Inductive pyexc :=
| RequestException
| TypeError
| AttributeError
| KeyError
| ValueError
| OverflowError
| ZeroDivisionError
| CancelledError
| KeyboardInterrupt
| SystemExit.

Definition is_RequestException (e : pyexc) : bool :=
  match e with RequestException => true | _ => false end.

Definition is_CancelledError (e : pyexc) : bool :=
  match e with CancelledError => true | _ => false end.

Definition is_Exception (e : pyexc) : bool :=
  match e with KeyboardInterrupt | SystemExit => false | _ => true end.

(** The outcome of evaluating an expression. *)
Inductive result (A : Type) :=
| Ok (a : A)
| Raise (e : pyexc).
Arguments Ok {A} a.
Arguments Raise {A} e.

Definition rbind {A B} (r : result A) (k : A -> result B) : result B :=
  match r with
  | Ok a => k a
  | Raise e => Raise e
  end.

Declare Scope result_scope.
Delimit Scope result_scope with res.
Notation "x <- r ;; k" := (rbind r (fun x => k))
  (at level 61, r at next level, right associativity) : result_scope.

(** Numbers: [int] and [float]; [bool] behaves as the ints 0 and 1. *)
Inductive pynum :=
| NInt (z : Z)
| NFloat (f : F64.float).

Definition as_num (v : pyval) : option pynum :=
  match v with
  | VBool b => Some (NInt (if b then 1 else 0))
  | VInt z => Some (NInt z)
  | VFloat f => Some (NFloat f)
  | _ => None
  end.

Definition of_num (n : pynum) : pyval :=
  match n with
  | NInt z => VInt z
  | NFloat f => VFloat f
  end.

Module Num.
Local Open Scope result_scope.

(** [float(z)]: fails when the integer is beyond the float range. *)
Definition to_float (n : pynum) : result F64.float :=
  match n with
  | NFloat f => Ok f
  | NInt z =>
      let f := F64.of_Z z in
      if F64.is_inf f then Raise OverflowError else Ok f
  end.

Definition arith (opz : Z -> Z -> Z) (opf : F64.float -> F64.float -> F64.float)
           (a b : pynum) : result pynum :=
  match a, b with
  | NInt x, NInt y => Ok (NInt (opz x y))
  | _, _ =>
      x <- to_float a ;;
      y <- to_float b ;;
      Ok (NFloat (opf x y))
  end.

Definition add := arith Z.add F64.add.
Definition sub := arith Z.sub F64.sub.
Definition mul := arith Z.mul F64.mul.

(** True division [a / b]; the result is always a float. *)
Definition truediv (a b : pynum) : result F64.float :=
  match a, b with
  | NInt x, NInt y =>
      if y =? 0 then Raise ZeroDivisionError
      else
        let q := F64.div_Z x y in
        if F64.is_inf q then Raise OverflowError else Ok q
  | _, _ =>
      x <- to_float a ;;
      y <- to_float b ;;
      if F64.is_zero y then Raise ZeroDivisionError else Ok (F64.div x y)
  end.

(** Comparisons with the literal [0]. *)
Definition gt0 (n : pynum) : bool :=
  match n with
  | NInt z => 0 <? z
  | NFloat f => F64.ltb F64.zero f
  end.

Definition le0 (n : pynum) : bool :=
  match n with
  | NInt z => z <=? 0
  | NFloat f => F64.leb f F64.zero
  end.

Definition eq0 (n : pynum) : bool :=
  match n with
  | NInt z => z =? 0
  | NFloat f => F64.is_zero f
  end.

End Num.

Module Py.
Local Open Scope result_scope.

Fixpoint lookup (k : string) (d : list (string * pyval)) : option pyval :=
  match d with
  | [] => None
  | (k', v) :: d' => if String.eqb k k' then Some v else lookup k d'
  end.

(** [obj.get(key, default)]: only dicts have the method. *)
Definition get (obj : pyval) (k : string) (default : pyval) : result pyval :=
  match obj with
  | VDict d =>
      match lookup k d with
      | Some v => Ok v
      | None => Ok default
      end
  | _ => Raise AttributeError
  end.

(** [obj[key]] with a string key. *)
Definition getitem (obj : pyval) (k : string) : result pyval :=
  match obj with
  | VDict d =>
      match lookup k d with
      | Some v => Ok v
      | None => Raise KeyError
      end
  | _ => Raise TypeError
  end.

Definition truthy (v : pyval) : bool :=
  match v with
  | VNone => false
  | VBool b => b
  | VInt z => negb (z =? 0)
  | VFloat f => negb (F64.is_zero f)
  | VStr s => negb (String.eqb s "")
  | VList l => match l with [] => false | _ => true end
  | VDict d => match d with [] => false | _ => true end
  end.

(** [a or b] *)
Definition or (a b : pyval) : pyval := if truthy a then a else b.

Definition len (v : pyval) : result nat :=
  match v with
  | VStr s => Ok (String.length s)
  | VList l => Ok (List.length l)
  | VDict d => Ok (List.length d)
  | _ => Raise TypeError
  end.

Fixpoint chars (s : string) : list pyval :=
  match s with
  | EmptyString => []
  | String c s' => VStr (String c EmptyString) :: chars s'
  end.

(** The items a [for] loop or a generator expression goes through. *)
Definition iter (v : pyval) : result (list pyval) :=
  match v with
  | VStr s => Ok (chars s)
  | VList l => Ok l
  | VDict d => Ok (map (fun kv => VStr (fst kv)) d)
  | _ => Raise TypeError
  end.

(** Arithmetic operators.  Every use in the program has a number on the
    left, so that an operand of another type is a [TypeError]. *)
Definition binop (op : pynum -> pynum -> result pynum) (a b : pyval)
  : result pyval :=
  match as_num a, as_num b with
  | Some x, Some y => n <- op x y ;; Ok (of_num n)
  | _, _ => Raise TypeError
  end.

Definition add := binop Num.add.
Definition sub := binop Num.sub.
Definition mul := binop Num.mul.

Definition truediv (a b : pyval) : result pyval :=
  match as_num a, as_num b with
  | Some x, Some y => q <- Num.truediv x y ;; Ok (VFloat q)
  | _, _ => Raise TypeError
  end.

(** [v > 0] *)
Definition gt0 (v : pyval) : result bool :=
  match as_num v with
  | Some n => Ok (Num.gt0 n)
  | None => Raise TypeError
  end.

(** [v == 0]; equality never raises. *)
Definition eq0 (v : pyval) : bool :=
  match as_num v with
  | Some n => Num.eq0 n
  | None => false
  end.

(** [round(v, 2)] *)
Definition round2 (v : pyval) : result pyval :=
  match v with
  | VFloat f => Ok (VFloat (F64.round2 f))
  | VInt z => Ok (VInt z)
  | VBool b => Ok (VInt (if b then 1 else 0))
  | _ => Raise TypeError
  end.

End Py.

(* ================================================================== *)
(** ** The world: standard output and the HTTP calls made *)

(** The three parts of [f"{CALLBACK_URL}{request_id}/async-data"]. *)
Record url := { url_base : string; url_id : pyval; url_path : string }.

Definition headers := list (string * string).

(** One constructor per [print] of the module, with the values it shows. *)
Inductive log_line :=
| LogFetching (request_id : pyval) (u : url)
| LogStatus (status_code : Z)
| LogFound (request_id : pyval) (n : nat) (comparison_date : pyval)
| LogNoCategories (request_id : pyval)
| LogTotalSpent (request_id total_spent : pyval)
| LogTotalZero (request_id : pyval)
| LogCategory (id weight change : pyval)
| LogNoValid (request_id : pyval)
| LogCalculated (request_id personal_cpi : pyval)
| LogFetchFailed (request_id : pyval) (status_code : Z)
| LogResponseText (text : string)
| LogRequestError (request_id : pyval) (e : pyexc)
| LogFetchError (request_id : pyval) (e : pyexc)
| LogTaskCompleted (id : pyval)
| LogOutcome (personal_cpi success : pyval)
| LogTaskError (e : pyexc)
| LogSent (request_id : pyval)
| LogSendFailed (status_code : Z) (text : string)
| LogSendError (e : pyexc).

Inductive event :=
| Sleep (seconds : Z)
| Print (l : log_line)
| Traceback (e : pyexc)
| HttpGet (u : url) (timeout : Z) (h : headers)
| HttpPut (u : url) (json : pyval) (h : headers) (timeout : Z).

(** Events in the order they happened. *)
Definition world := list event.

(** A [requests] response: the status, the text, and what [.json()]
    gives. *)
Record response :=
  { status_code : Z; text : string; json : result pyval }.

(** The collaborator service: what each call answers, or the exception
    the call raises. *)
Record network :=
  { on_get : url -> result response;
    on_put : url -> pyval -> result response }.

(** Effectful code: reads and extends the world, returns or raises. *)
Definition M (A : Type) := world -> result A * world.

Definition ret {A} (a : A) : M A := fun w => (Ok a, w).

Definition bind {A B} (m : M A) (k : A -> M B) : M B :=
  fun w =>
    match m w with
    | (Ok a, w') => k a w'
    | (Raise e, w') => (Raise e, w')
    end.

Definition lift {A} (r : result A) : M A := fun w => (r, w).

Definition emit (ev : event) : M unit := fun w => (Ok tt, w ++ [ev]).

(** Standard output, as far as it decides whether a value can be
    written: the limit on the digits of an integer turned into text
    ([sys.get_int_max_str_digits()], [None] for no limit), the texts the
    encoding of [sys.stdout] accepts, and the texts whose [repr] it
    accepts. *)
Record console :=
  { max_str_digits : option N;
    encodes : string -> bool;
    encodes_repr : string -> bool }.

(** [str(z)] raises [ValueError] for an integer of more digits than the
    limit [n], that is, when 10^n <= |z|.  The first two tests settle the
    integers of fewer than 3n bits (below 8^n) and of more than 4n bits
    (above 16^n) without computing 10^n. *)
Definition digits_ok (out : console) (z : Z) : bool :=
  match max_str_digits out with
  | None => true
  | Some n =>
      let bits := Z.log2 (Z.abs z) in
      if bits <? 3 * Z.of_N n then true
      else if 4 * Z.of_N n <? bits then false
      else Z.abs z <? 10 ^ Z.of_N n
  end.

(** [repr(v)] can be built and written: the form a value takes inside a
    list or a dict. *)
Fixpoint repr_ok (out : console) (v : pyval) : bool :=
  match v with
  | VInt z => digits_ok out z
  | VStr s => encodes_repr out s
  | VList l => forallb (repr_ok out) l
  | VDict d =>
      forallb (fun kv => encodes_repr out (fst kv) && repr_ok out (snd kv)) d
  | _ => true
  end.

(** [f"{v}"] can be built and printed: a string is written as it is, any
    other value as its [repr]. *)
Definition showable (out : console) (v : pyval) : bool :=
  match v with
  | VStr s => encodes out s
  | _ => repr_ok out v
  end.

(** The values a line interpolates and that decide whether it can be
    printed.  A status code has three digits and a length is a machine
    integer; the text of an exception of the program names types and
    positions and escapes the characters it quotes: these are taken to
    be always printed, on a standard output that is open. *)
Definition shown (l : log_line) : list pyval :=
  match l with
  | LogFetching request_id _ => [request_id]
  | LogStatus _ => []
  | LogFound request_id _ comparison_date => [request_id; comparison_date]
  | LogNoCategories request_id => [request_id]
  | LogTotalSpent request_id total_spent => [request_id; total_spent]
  | LogTotalZero request_id => [request_id]
  | LogCategory id weight change => [id; weight; change]
  | LogNoValid request_id => [request_id]
  | LogCalculated request_id personal_cpi => [request_id; personal_cpi]
  | LogFetchFailed request_id _ => [request_id]
  | LogResponseText text => [VStr text]
  | LogRequestError request_id _ => [request_id]
  | LogFetchError request_id _ => [request_id]
  | LogTaskCompleted id => [id]
  | LogOutcome personal_cpi success => [personal_cpi; success]
  | LogTaskError _ => []
  | LogSent request_id => [request_id]
  | LogSendFailed _ text => [VStr text]
  | LogSendError _ => []
  end.

(** [print(f"...")]: when a value cannot be formatted ([ValueError]) or
    the text cannot be encoded ([UnicodeEncodeError], a [ValueError])
    nothing is written and the exception is raised. *)
Definition print (out : console) (l : log_line) : M unit :=
  if forallb (showable out) (shown l) then emit (Print l)
  else lift (Raise ValueError).

(** [try: body / except ...: handler]; a handler of [None] is an
    exception that no clause matches. *)
Definition try_except {A} (body : M A) (handler : pyexc -> option (M A)) : M A :=
  fun w =>
    match body w with
    | (Ok a, w') => (Ok a, w')
    | (Raise e, w') =>
        match handler e with
        | Some h => h w'
        | None => (Raise e, w')
        end
    end.

Definition http_get (net : network) (u : url) (timeout : Z) (h : headers)
  : M response :=
  fun w => (on_get net u, w ++ [HttpGet u timeout h]).

Definition http_put (net : network) (u : url) (body : pyval) (h : headers)
           (timeout : Z) : M response :=
  fun w => (on_put net u body, w ++ [HttpPut u body h timeout]).

Declare Scope py_scope.
Delimit Scope py_scope with py.
Notation "x <- m ;; k" := (bind m (fun x => k))
  (at level 61, m at next level, right associativity) : py_scope.
Notation "m ;; k" := (bind m (fun _ => k))
  (at level 61, right associativity) : py_scope.

(* ================================================================== *)
(** ** The program *)

Definition CALLBACK_URL : string := "http://localhost:8080/api/calculate-cpi/".

Definition AUTH_TOKEN : string := "lab8token".

Definition auth_headers : headers :=
  [("Content-Type", "application/json"); ("X-Auth-Token", AUTH_TOKEN)].

(** [f"{CALLBACK_URL}{request_id}/async-data"] and
    [f"{CALLBACK_URL}{request_id}/async-result"] *)
Definition data_url (request_id : pyval) : url :=
  {| url_base := CALLBACK_URL; url_id := request_id; url_path := "/async-data" |}.

Definition result_url (request_id : pyval) : url :=
  {| url_base := CALLBACK_URL; url_id := request_id; url_path := "/async-result" |}.

(** The record returned on every path but the successful one. *)
Definition failure (request_id : pyval) : pyval :=
  VDict [("id", request_id); ("personalCPI", VNone); ("success", VBool false)].

Definition success (request_id personal_cpi : pyval) : pyval :=
  VDict [("id", request_id); ("personalCPI", personal_cpi); ("success", VBool true)].

(** [cat.get(key, 0) or 0] *)
Definition field_or_0 (cat : pyval) (key : string) : result pyval :=
  (v <- Py.get cat key (VInt 0) ;; Ok (Py.or v (VInt 0)))%res.

(** [sum(cat.get('userSpent', 0) or 0 for cat in categories)]: the items
    are added from the left, starting from the integer 0.  (CPython 3.12
    and later compensate the rounding errors of a sum of floats; the
    left-to-right additions of the language definition are modelled.) *)
Fixpoint sum_user_spent (acc : pyval) (categories : list pyval) : result pyval :=
  match categories with
  | [] => Ok acc
  | cat :: rest =>
      (x <- field_or_0 cat "userSpent" ;;
       acc' <- Py.add acc x ;;
       sum_user_spent acc' rest)%res
  end.

(** [for x in items: body], with the variables the body assigns as state. *)
Fixpoint for_each {S A} (body : S -> A -> M S) (st : S) (items : list A) : M S :=
  match items with
  | [] => ret st
  | x :: rest => (st' <- body st x ;; for_each body st' rest)%py
  end.

Section Calculation.
Local Open Scope py_scope.

Variable out : console.
Variable request_id : pyval.

(** Lines 85-94: one round of the loop over the categories; the state
    is [(personal_cpi, has_valid_categories)]. *)
Definition category_step (total_spent : pyval) (st : pyval * bool)
           (category : pyval) : M (pyval * bool) :=
  let (personal_cpi, has_valid_categories) := st in
  user_spent <- lift (field_or_0 category "userSpent") ;;
  base_price <- lift (field_or_0 category "basePrice") ;;
  base_ok <- lift (Py.gt0 base_price) ;;
  valid <- (if base_ok : bool then lift (Py.gt0 user_spent) else ret false) ;;
  if valid : bool then
    weight <- lift (Py.truediv user_spent total_spent) ;;
    diff <- lift (Py.sub user_spent base_price) ;;
    change <- lift (Py.truediv diff base_price) ;;
    term <- lift (Py.mul weight change) ;;
    personal_cpi' <- lift (Py.add personal_cpi term) ;;
    id <- lift (Py.get category "id" VNone) ;;
    print out (LogCategory id weight change) ;;
    ret (personal_cpi', true)
  else
    ret (personal_cpi, has_valid_categories).

(** Lines 56-112: from the categories to the returned record. *)
Definition calculate_index (categories : pyval) : M pyval :=
  if negb (Py.truthy categories) then
    print out (LogNoCategories request_id) ;;
    ret (failure request_id)
  else
    items <- lift (Py.iter categories) ;;
    total_spent <- lift (sum_user_spent (VInt 0) items) ;;
    print out (LogTotalSpent request_id total_spent) ;;
    if Py.eq0 total_spent then
      print out (LogTotalZero request_id) ;;
      ret (failure request_id)
    else
      st <- for_each (category_step total_spent) (VFloat F64.zero, false) items ;;
      let (personal_cpi, has_valid_categories) := st : pyval * bool in
      if negb has_valid_categories then
        print out (LogNoValid request_id) ;;
        ret (failure request_id)
      else
        scaled <- lift (Py.mul personal_cpi (VInt 100)) ;;
        personal_cpi <- lift (Py.round2 scaled) ;;
        print out (LogCalculated request_id personal_cpi) ;;
        ret (success request_id personal_cpi).

(** Lines 50-112: the branch taken for a response with status 200, from
    the decoded body to the returned record. *)
Definition index_calculator (request_data : pyval) : M pyval :=
  categories <- lift (Py.get request_data "categories" (VList [])) ;;
  comparison_date <- lift (Py.get request_data "comparisonDate" VNone) ;;
  n <- lift (Py.len categories) ;;
  print out (LogFound request_id n comparison_date) ;;
  calculate_index categories.

Variable net : network.

(** Lines 37-120: the body of the [try].  The f-string of line 37 formats
    the identifier that line 38 prints: when it raises, so does the
    [print] here. *)
Definition fetch_and_calculate : M pyval :=
  let u := data_url request_id in
  print out (LogFetching request_id u) ;;
  response <- http_get net u 10 auth_headers ;;
  print out (LogStatus (status_code response)) ;;
  if status_code response =? 200 then
    request_data <- lift (json response) ;;
    index_calculator request_data
  else
    print out (LogFetchFailed request_id (status_code response)) ;;
    print out (LogResponseText (text response)) ;;
    ret (failure request_id).

(** Lines 121-135: what follows an exception caught by one of the two
    clauses. *)
Definition after_error (l : log_line) (e : pyexc) : M pyval :=
  print out l ;;
  emit (Traceback e) ;;
  ret (failure request_id).

Definition calculate_personal_cpi : M pyval :=
  emit (Sleep 30) ;;
  try_except fetch_and_calculate
    (fun e =>
       if is_RequestException e then
         Some (after_error (LogRequestError request_id e) e)
       else if is_Exception e then
         Some (after_error (LogFetchError request_id e) e)
       else None).

End Calculation.

(** The state of a finished task, as [task.result()] sees it. *)
Inductive future :=
| Finished (v : pyval)
| Failed (e : pyexc)
| Cancelled.

Definition future_result (task : future) : result pyval :=
  match task with
  | Finished v => Ok v
  | Failed e => Raise e
  | Cancelled => Raise CancelledError
  end.

Section Reporting.
Local Open Scope py_scope.

Variable out : console.
Variable net : network.

(** Lines 143-153: [None] stands for the two [return]s. *)
Definition task_outcome (task : future) : M (option pyval) :=
  try_except
    (result <- lift (future_result task) ;;
     id <- lift (Py.getitem result "id") ;;
     print out (LogTaskCompleted id) ;;
     personal_cpi <- lift (Py.get result "personalCPI" VNone) ;;
     ok <- lift (Py.get result "success" VNone) ;;
     print out (LogOutcome personal_cpi ok) ;;
     ret (Some result))
    (fun e =>
       if is_CancelledError e then Some (ret None)
       else if is_Exception e then
         Some (print out (LogTaskError e) ;; emit (Traceback e) ;; ret None)
       else None).

(** Lines 156-180.  The identifier formatted at line 158 is the one
    line 145 printed. *)
Definition send_result (result : pyval) : M unit :=
  try_except
    (request_id <- lift (Py.getitem result "id") ;;
     let u := result_url request_id in
     personal_cpi <- lift (Py.get result "personalCPI" VNone) ;;
     ok <- lift (Py.get result "success" (VBool false)) ;;
     let payload := VDict [("personalCPI", personal_cpi); ("success", ok)] in
     response <- http_put net u payload auth_headers 10 ;;
     if status_code response =? 200 then
       print out (LogSent request_id)
     else
       print out (LogSendFailed (status_code response) (text response)))
    (fun e =>
       if is_Exception e then
         Some (print out (LogSendError e) ;; emit (Traceback e))
       else None).

Definition result_callback (task : future) : M unit :=
  outcome <- task_outcome task ;;
  match outcome with
  | None => ret tt
  | Some result => send_result result
  end.

(** Lines 230-231: the worker calls the function, stores what it
    returned or raised in the future, and runs the callback. *)
Definition run_task (request_id : pyval) : M unit :=
  fun w =>
    let (r, w') := calculate_personal_cpi out request_id net w in
    let task := match r with Ok v => Finished v | Raise e => Failed e end in
    result_callback task w'.

End Reporting.

(** The report calls of a run. *)
Definition reports (w : world) : list (url * pyval) :=
  flat_map (fun ev => match ev with
                      | HttpPut u body _ _ => [(u, body)]
                      | _ => []
                      end) w.

(* ================================================================== *)
(** ** The data model and the algorithm of the specification *)

(** A spending category.  [userSpent] and [basePrice] hold the number the
    calculation works with: a field that is missing, null or zero reads as
    the integer 0. *)
Record CategoryRecord :=
  { cat_id : pyval; userSpent : pynum; basePrice : pynum }.

Record RequestData :=
  { categories : list CategoryRecord; comparisonDate : pyval }.

Definition lookup_or (d : list (string * pyval)) (key : string) (default : pyval)
  : pyval :=
  match Py.lookup key d with
  | Some v => v
  | None => default
  end.

Definition read_field (d : list (string * pyval)) (key : string) : option pynum :=
  as_num (Py.or (lookup_or d key (VInt 0)) (VInt 0)).

(** A decoded JSON object seen as a category; [None] when one of the two
    fields is not a number. *)
Definition as_category (v : pyval) : option CategoryRecord :=
  match v with
  | VDict d =>
      match read_field d "userSpent", read_field d "basePrice" with
      | Some u, Some b =>
          Some {| cat_id := lookup_or d "id" VNone; userSpent := u; basePrice := b |}
      | _, _ => None
      end
  | _ => None
  end.

Fixpoint as_categories (l : list pyval) : option (list CategoryRecord) :=
  match l with
  | [] => Some []
  | v :: l' =>
      match as_category v, as_categories l' with
      | Some c, Some cs => Some (c :: cs)
      | _, _ => None
      end
  end.

(** A decoded response body seen as RequestData. *)
Definition as_request_data (v : pyval) : option RequestData :=
  match v with
  | VDict d =>
      match lookup_or d "categories" (VList []) with
      | VList l =>
          match as_categories l with
          | Some cs =>
              Some {| categories := cs;
                      comparisonDate := lookup_or d "comparisonDate" VNone |}
          | None => None
          end
      | _ => None
      end
  | _ => None
  end.

(** The algorithm as the specification words it. *)
Module Spec.
Local Open Scope result_scope.

Fixpoint sum_from (acc : pynum) (l : list pynum) : result pynum :=
  match l with
  | [] => Ok acc
  | x :: l' => acc' <- Num.add acc x ;; sum_from acc' l'
  end.

(** The sum of [userSpent] over all categories. *)
Definition totalSpent (d : RequestData) : result pynum :=
  sum_from (NInt 0) (map userSpent (categories d)).

(** [basePrice > 0 AND userSpent > 0] *)
Definition valid (c : CategoryRecord) : bool :=
  Num.gt0 (basePrice c) && Num.gt0 (userSpent c).

Definition weight (t : pynum) (c : CategoryRecord) : result F64.float :=
  Num.truediv (userSpent c) t.

Definition change (c : CategoryRecord) : result F64.float :=
  diff <- Num.sub (userSpent c) (basePrice c) ;;
  Num.truediv diff (basePrice c).

Definition contribution (t : pynum) (c : CategoryRecord) : result F64.float :=
  w <- weight t c ;;
  ch <- change c ;;
  Ok (F64.mul w ch).

Fixpoint sigma (t : pynum) (acc : F64.float) (l : list CategoryRecord)
  : result F64.float :=
  match l with
  | [] => Ok acc
  | c :: l' => x <- contribution t c ;; sigma t (F64.add acc x) l'
  end.

(** [round(100 * sum of weight * change over the valid categories, 2)] *)
Definition personalIndex (d : RequestData) (t : pynum) : result F64.float :=
  s <- sigma t F64.zero (filter valid (categories d)) ;;
  Ok (F64.round2 (F64.mul (F64.of_Z 100) s)).

(** Steps 1 to 4 of the Index Calculator. *)
Definition outcome (request_id : pyval) (d : RequestData) : result pyval :=
  match categories d with
  | [] => Ok (failure request_id)
  | _ =>
      t <- totalSpent d ;;
      if Num.eq0 t then Ok (failure request_id)
      else
        v <- personalIndex d t ;;
        if existsb valid (categories d)
        then Ok (success request_id (VFloat v))
        else Ok (failure request_id)
  end.

End Spec.

(** The fetch of the data of [request_id] succeeds with [payload]. *)
Definition fetched (net : network) (request_id payload : pyval) : Prop :=
  exists r, on_get net (data_url request_id) = Ok r
            /\ status_code r = 200 /\ json r = Ok payload.

(** The fetch fails: the call raises an exception, or the status is not
    200. *)
Definition fetch_fails (net : network) (request_id : pyval) : Prop :=
  match on_get net (data_url request_id) with
  | Raise e => is_Exception e = true
  | Ok r => status_code r <> 200
  end.

(* ================================================================== *)
(** ** Predicates on effectful code and on outcomes *)

(** [m] never looks at the world: it has one result, and appends the same
    events, all satisfying [P], to whatever world it starts from. *)
Definition writes {A} (P : event -> Prop) (m : M A) : Prop :=
  exists r evs, Forall P evs /\ forall w, m w = (r, w ++ evs).

(** The result of code run in the empty world. *)
Definition run {A} (m : M A) : result A := fst (m []).

Definition is_print (ev : event) : Prop :=
  match ev with Print _ => True | _ => False end.

(** Anything but a report call. *)
Definition no_report (ev : event) : Prop :=
  match ev with HttpPut _ _ _ _ => False | _ => True end.

(** The result is a value satisfying [Q], or an exception that derives
    from [Exception]. *)
Definition rpost {A} (r : result A) (Q : A -> Prop) : Prop :=
  match r with
  | Ok a => Q a
  | Raise e => is_Exception e = true
  end.

Definition post {A} (m : M A) (Q : A -> Prop) : Prop :=
  forall w, rpost (fst (m w)) Q.

Definition any {A} : A -> Prop := fun _ => True.

Definition is_float (v : pyval) : Prop := exists f, v = VFloat f.

(** The two records the calculation can return. *)
Definition outcome_shape (request_id v : pyval) : Prop :=
  v = failure request_id \/ exists f, v = success request_id (VFloat f).

(** What the [try] block yields once line 38 has printed: the fetch, the
    decoding and the calculation. *)
Definition fetch_outcome (out : console) (request_id : pyval) (net : network)
  : result pyval :=
  match on_get net (data_url request_id) with
  | Raise e => Raise e
  | Ok r =>
      if status_code r =? 200 then
        match json r with
        | Raise e => Raise e
        | Ok payload => run (index_calculator out request_id payload)
        end
      else if showable out (VStr (text r)) then Ok (failure request_id)
      else Raise ValueError
  end.

(** The two [except] clauses and the final [return]. *)
Definition caught (request_id : pyval) (r : result pyval) : result pyval :=
  match r with
  | Ok v => Ok v
  | Raise e => if is_Exception e then Ok (failure request_id) else Raise e
  end.

(** What is sent for a returned record. *)
Definition payload_of (personal_cpi ok : pyval) : pyval :=
  VDict [("personalCPI", personal_cpi); ("success", ok)].


(** Fetching and decoding raise nothing but exceptions that derive from
    [Exception]. *)
Definition raises_exceptions_only (net : network) (request_id : pyval) : Prop :=
  rpost (on_get net (data_url request_id))
        (fun r => status_code r = 200 -> rpost (json r) any).


(** A number that is a float, or the integer 0 that a missing, null or
    zero field reads as. *)
Definition float_field (n : pynum) : Prop :=
  match n with
  | NFloat _ => True
  | NInt z => z = 0
  end.

(** RequestData whose numbers are all floats. *)
Definition float_data (d : RequestData) : Prop :=
  Forall (fun c => float_field (userSpent c) /\ float_field (basePrice c))
         (categories d).

(* ================================================================== *)
(** ** Sample data *)

Definition category (id user_spent base_price : pyval) : pyval :=
  VDict [("id", id); ("userSpent", user_spent); ("basePrice", base_price)].

Definition body_of (cats : list pyval) (comparison_date : string) : pyval :=
  VDict [("categories", VList cats); ("comparisonDate", VStr comparison_date)].

Definition reply (status : Z) (body : result pyval) : result response :=
  Ok {| status_code := status; text := ""; json := body |}.

(** A collaborator that serves [payload] for every request and accepts
    every report. *)
Definition serving (payload : pyval) : network :=
  {| on_get := fun _ => reply 200 (Ok payload);
     on_put := fun _ _ => reply 200 (Raise ValueError) |}.

(** A collaborator whose data endpoint answers with an error status. *)
Definition failing (status : Z) : network :=
  {| on_get := fun _ => reply status (Raise ValueError);
     on_put := fun _ _ => reply 200 (Raise ValueError) |}.

(** A collaborator that cannot be reached. *)
Definition unreachable : network :=
  {| on_get := fun _ => Raise RequestException;
     on_put := fun _ _ => Raise RequestException |}.

(** userSpent=150, basePrice=100 *)
Definition single_category : pyval :=
  body_of [category (VInt 1) (VInt 150) (VInt 100)] "2024-01-01".

(** A(userSpent=50, basePrice=50), B(userSpent=50, basePrice=25) *)
Definition two_categories : pyval :=
  body_of [category (VStr "A") (VInt 50) (VInt 50);
           category (VStr "B") (VInt 50) (VInt 25)] "2024-01-01".

(** One category whose spend is an integer beyond the float range. *)
Definition huge_spend : pyval :=
  body_of [category (VInt 1) (VInt (10 ^ 400)) (VInt 1)] "2024-01-01".

Definition huge_spend_data : RequestData :=
  {| categories :=
       [{| cat_id := VInt 1; userSpent := NInt (10 ^ 400); basePrice := NInt 1 |}];
     comparisonDate := VStr "2024-01-01" |}.

(** One category whose spend is a string. *)
Definition text_spend : pyval :=
  body_of [category (VInt 1) (VStr "abc") (VInt 1)] "2024-01-01".

(** Spend without a base price, and a category with a null spend. *)
Definition no_base_price : pyval :=
  body_of [category (VInt 1) (VInt 5) (VInt 0);
           category (VInt 2) VNone (VInt 100)] "2024-01-01".

Definition nothing_spent : pyval :=
  body_of [category (VInt 1) VNone (VInt 100);
           VDict [("id", VInt 2); ("basePrice", VInt 30)]] "2024-01-01".

(* ================================================================== *)
(** ** The trigger endpoint *)

(** The two methods [@api_view(['POST', 'OPTIONS'])] lets through. *)
Inductive http_method := POST | OPTIONS.

(** What the view reads of the incoming request; [data] is the decoded
    JSON body. *)
Record request :=
  { method : http_method; data : pyval; content_type : string }.

(** The body of a [Response]: nothing, [{"error": text}],
    [{"error": f"Internal server error: {str(e)}"}] or
    [{"message": f"Processing started for request {request_id}"}]. *)
Inductive content :=
| NoContent
| ErrorMessage (error : string)
| InternalServerError (e : pyexc)
| ProcessingStarted (request_id : pyval).

Record http_response :=
  { status : Z; body : content; response_headers : headers }.

(** One constructor per [print] of the view. *)
Inductive view_line :=
| ReceivedRequest (data : pyval)
| RequestMethod (m : http_method)
| ContentType (content_type : string)
| EmptyBodyWarning
| TaskStarted (request_id : pyval)
| ViewError (e : pyexc)
| ViewTraceback (e : pyexc).

(** What the view acts on: the work items handed to [executor.submit],
    oldest first (each with [result_callback] attached), and standard
    output. *)
Record server :=
  { submitted : list pyval; stdout : list view_line }.

Definition V (A : Type) := server -> result A * server.

Definition vret {A} (a : A) : V A := fun s => (Ok a, s).

Definition vbind {A B} (m : V A) (k : A -> V B) : V B :=
  fun s =>
    match m s with
    | (Ok a, s') => k a s'
    | (Raise e, s') => (Raise e, s')
    end.

Definition vlift {A} (r : result A) : V A := fun s => (r, s).

(** The values a line of the view interpolates. *)
Definition view_shown (l : view_line) : list pyval :=
  match l with
  | ReceivedRequest data => [data]
  | ContentType content_type => [VStr content_type]
  | TaskStarted request_id => [request_id]
  | _ => []
  end.

(** [print(f"...")] in the view. *)
Definition say (out : console) (l : view_line) : V unit :=
  fun s =>
    if forallb (showable out) (view_shown l) then
      (Ok tt, {| submitted := submitted s; stdout := stdout s ++ [l] |})
    else (Raise ValueError, s).

(** [task = executor.submit(calculate_personal_cpi, request_id)] followed
    by [task.add_done_callback(result_callback)]; the module never shuts
    the executor down, so that the submission is accepted. *)
Definition submit (request_id : pyval) : V unit :=
  fun s => (Ok tt, {| submitted := submitted s ++ [request_id];
                      stdout := stdout s |}).

Definition vtry {A} (body : V A) (handler : pyexc -> option (V A)) : V A :=
  fun s =>
    match body s with
    | (Ok a, s') => (Ok a, s')
    | (Raise e, s') =>
        match handler e with
        | Some h => h s'
        | None => (Raise e, s')
        end
    end.

Declare Scope view_scope.
Delimit Scope view_scope with view.
Notation "x <- m ;; k" := (vbind m (fun x => k))
  (at level 61, m at next level, right associativity) : view_scope.
Notation "m ;; k" := (vbind m (fun _ => k))
  (at level 61, right associativity) : view_scope.

Definition HTTP_200_OK : Z := 200.
Definition HTTP_400_BAD_REQUEST : Z := 400.
Definition HTTP_401_UNAUTHORIZED : Z := 401.
Definition HTTP_500_INTERNAL_SERVER_ERROR : Z := 500.

(** The headers set on the answer to a started task. *)
Definition cors_headers : headers :=
  [("Access-Control-Allow-Origin", "*");
   ("Access-Control-Allow-Methods", "POST, OPTIONS");
   ("Access-Control-Allow-Headers", "Content-Type, X-Auth-Token, Authorization")].

(** The headers set on the answer to [OPTIONS]. *)
Definition preflight_headers : headers :=
  cors_headers ++ [("Access-Control-Max-Age", "86400")].

(** [obj.keys()]: only dicts have the method. *)
Definition keys (obj : pyval) : result (list string) :=
  match obj with
  | VDict d => Ok (map fst d)
  | _ => Raise AttributeError
  end.

(** [key in ks] *)
Definition contains (key : string) (ks : list string) : bool :=
  existsb (String.eqb key) ks.

(** [v != s] for a string [s]: values of another type are unequal. *)
Definition differs (v : pyval) (s : string) : bool :=
  match v with
  | VStr s' => negb (String.eqb s' s)
  | _ => true
  end.

(** Lines 200-243: the body of the [try]. *)
Definition handle_post (out : console) (request : request) : V http_response :=
  (say out (ReceivedRequest (data request)) ;;
   say out (RequestMethod (method request)) ;;
   say out (ContentType (content_type request)) ;;
   if negb (Py.truthy (data request)) then
     say out EmptyBodyWarning ;;
     vret {| status := HTTP_400_BAD_REQUEST;
             body := ErrorMessage "Request body is empty";
             response_headers := [] |}
   else
     has_pk <- vlift (ks <- keys (data request) ;; Ok (contains "pk" ks))%res ;;
     has_token <- (if has_pk : bool
                   then vlift (ks <- keys (data request) ;;
                               Ok (contains "token" ks))%res
                   else vret false) ;;
     if negb has_pk || negb has_token then
       vret {| status := HTTP_400_BAD_REQUEST;
               body := ErrorMessage "Missing required fields: pk and token";
               response_headers := [] |}
     else
       request_id <- vlift (Py.getitem (data request) "pk") ;;
       token <- vlift (Py.getitem (data request) "token") ;;
       if differs token AUTH_TOKEN then
         vret {| status := HTTP_401_UNAUTHORIZED;
                 body := ErrorMessage "Invalid token";
                 response_headers := [] |}
       else
         submit request_id ;;
         say out (TaskStarted request_id) ;;
         vret {| status := HTTP_200_OK;
                 body := ProcessingStarted request_id;
                 response_headers := cors_headers |})%view.

(** Lines 185-251. *)
Definition process_request (out : console) (request : request)
  : V http_response :=
  match method request with
  | OPTIONS =>
      vret {| status := HTTP_200_OK; body := NoContent;
              response_headers := preflight_headers |}
  | POST =>
      vtry (handle_post out request)
        (fun e =>
           if is_Exception e then
             Some (say out (ViewError e) ;;
                   say out (ViewTraceback e) ;;
                   vret {| status := HTTP_500_INTERNAL_SERVER_ERROR;
                           body := InternalServerError e;
                           response_headers := [] |})%view
           else None)
  end.

(** The single worker thread takes the submitted items one at a time,
    oldest first; an exception that escapes a task ends the worker. *)
Fixpoint run_tasks (out : console) (net : network) (request_ids : list pyval)
  : M unit :=
  match request_ids with
  | [] => ret tt
  | request_id :: rest =>
      (run_task out net request_id ;; run_tasks out net rest)%py
  end.

(** The HTTP calls of a run, in order. *)
Definition http_calls (w : world) : list event :=
  filter (fun ev => match ev with
                    | HttpGet _ _ _ | HttpPut _ _ _ _ => true
                    | _ => false
                    end) w.

(** Neither a fetch nor a report. *)
Definition no_http (ev : event) : Prop :=
  match ev with
  | HttpGet _ _ _ | HttpPut _ _ _ _ => False
  | _ => True
  end.

(** Every call to the collaborator raises nothing but exceptions that
    derive from [Exception]. *)
Definition network_raises_exceptions_only (net : network) : Prop :=
  (forall u, rpost (on_get net u) (fun r => rpost (json r) any))
  /\ (forall u b, rpost (on_put net u b) any).

(** The two numbers of a category. *)
Definition numbers (c : CategoryRecord) : pynum * pynum :=
  (userSpent c, basePrice c).

Definition is_int (n : pynum) : Prop :=
  match n with
  | NInt _ => True
  | NFloat _ => False
  end.

(** RequestData whose numbers are all integers. *)
Definition int_data (d : RequestData) : Prop :=
  Forall (fun c => is_int (userSpent c) /\ is_int (basePrice c)) (categories d).

(** Every category that counts was spent on at its base price. *)
Definition prices_unchanged (d : RequestData) : Prop :=
  Forall (fun c => Spec.valid c = true -> userSpent c = basePrice c)
         (categories d).

(** A response body whose [categories] is null. *)
Definition null_categories : pyval :=
  VDict [("categories", VNone); ("comparisonDate", VStr "2024-01-01")].

(* ================================================================== *)
(** ** Printing and the specification *)

(** The outcome of the Index Calculator with the prints of the code in
    their places: a value that cannot be printed raises where the code
    prints it. *)
Module Printed.
Local Open Scope result_scope.

(** Lines 85-94 over the categories that count: the id is printed after
    the term is added. *)
Fixpoint sigma (out : console) (t : pynum) (acc : F64.float)
         (l : list CategoryRecord) : result F64.float :=
  match l with
  | [] => Ok acc
  | c :: l' =>
      x <- Spec.contribution t c ;;
      if showable out (cat_id c) then sigma out t (F64.add acc x) l'
      else Raise ValueError
  end.

Definition outcome (out : console) (request_id : pyval) (d : RequestData)
  : result pyval :=
  if showable out request_id && showable out (comparisonDate d) then
    match categories d with
    | [] => Ok (failure request_id)
    | _ =>
        t <- Spec.totalSpent d ;;
        if showable out (of_num t) then
          if Num.eq0 t then Ok (failure request_id)
          else
            s <- sigma out t F64.zero (filter Spec.valid (categories d)) ;;
            if existsb Spec.valid (categories d)
            then Ok (success request_id
                       (VFloat (F64.round2 (F64.mul (F64.of_Z 100) s))))
            else Ok (failure request_id)
        else Raise ValueError
    end
  else Raise ValueError.

End Printed.

(** Every value the calculation prints for this data can be printed: the
    request identifier, the comparison date, the total spent and the id
    of each category that counts. *)
Definition printable (out : console) (request_id : pyval) (d : RequestData)
  : Prop :=
  showable out request_id = true
  /\ showable out (comparisonDate d) = true
  /\ (forall t, Spec.totalSpent d = Ok t -> showable out (of_num t) = true)
  /\ Forall (fun c => Spec.valid c = true -> showable out (cat_id c) = true)
            (categories d).

(* ================================================================== *)
(** ** The standard output of CPython 3.11 on UTF-8 *)

(** A str is held as the bytes of its UTF-8 form; a lone surrogate, which
    the JSON text "\ud800" decodes to and which UTF-8 cannot encode, shows
    as the bytes ED A0..BF 80..BF. *)
Fixpoint no_surrogate (s : string) : bool :=
  match s with
  | EmptyString => true
  | String a s' =>
      match s' with
      | String b _ =>
          if (Nat.eqb (Ascii.nat_of_ascii a) 237
              && Nat.leb 160 (Ascii.nat_of_ascii b))%bool
          then false
          else no_surrogate s'
      | EmptyString => true
      end
  end.

(** At most 4300 digits; UTF-8, in which the [repr] of a text always
    encodes, since it escapes the surrogates. *)
Definition utf8_stdout : console :=
  {| max_str_digits := Some 4300%N;
     encodes := no_surrogate;
     encodes_repr := fun _ => true |}.

(** The str that the JSON text "\ud800" decodes to. *)
Definition lone_surrogate : string :=
  String (Ascii.ascii_of_nat 237)
    (String (Ascii.ascii_of_nat 160) (String (Ascii.ascii_of_nat 128) "")).



(** One category whose id is that str. *)
Definition surrogate_id : pyval :=
  body_of [category (VStr lone_surrogate) (VInt 150) (VInt 100)] "2024-01-01".

Definition surrogate_id_data : RequestData :=
  {| categories :=
       [{| cat_id := VStr lone_surrogate; userSpent := NInt 150;
           basePrice := NInt 100 |}];
     comparisonDate := VStr "2024-01-01" |}.

(* ================================================================== *)
(** ** Numbers *)

Lemma as_num_of_num (n : pynum) : as_num (of_num n) = Some n.
Proof. destruct n; reflexivity. Qed.

(** The test of [digits_ok] is the comparison with 10^n. *)
Lemma digits_ok_spec (out : console) (z : Z) :
  digits_ok out z
  = match max_str_digits out with
    | None => true
    | Some n => Z.abs z <? 10 ^ Z.of_N n
    end.
Proof.
  unfold digits_ok. destruct (max_str_digits out) as [n|]; [|reflexivity].
  cbv zeta. pose proof (N2Z.is_nonneg n) as Hn.
  assert (H10 : 0 < 10 ^ Z.of_N n) by (apply Z.pow_pos_nonneg; lia).
  destruct (Z.ltb_spec (Z.log2 (Z.abs z)) (3 * Z.of_N n)) as [Hlo|Hlo].
  - symmetry. apply Z.ltb_lt.
    destruct (Z.eq_dec (Z.abs z) 0) as [->|Hz]; [exact H10|].
    assert (Hpos : 0 < Z.abs z) by lia.
    pose proof (Z.log2_spec _ Hpos) as [_ Hup].
    assert (H2 : 2 ^ Z.succ (Z.log2 (Z.abs z)) <= 2 ^ (3 * Z.of_N n))
      by (apply Z.pow_le_mono_r; lia).
    assert (H8 : 2 ^ (3 * Z.of_N n) <= 10 ^ Z.of_N n).
    { rewrite Z.pow_mul_r by lia. apply Z.pow_le_mono_l. cbn. lia. }
    lia.
  - destruct (Z.ltb_spec (4 * Z.of_N n) (Z.log2 (Z.abs z))) as [Hhi|Hhi];
      [|reflexivity].
    symmetry. apply Z.ltb_ge.
    assert (Hpos : 0 < Z.abs z).
    { destruct (Z.lt_ge_cases 0 (Z.abs z)) as [H|H]; [exact H|].
      rewrite (Z.log2_nonpos _ H) in Hhi. lia. }
    pose proof (Z.log2_spec _ Hpos) as [Hdown _].
    assert (H2 : 2 ^ (4 * Z.of_N n) <= 2 ^ Z.log2 (Z.abs z))
      by (apply Z.pow_le_mono_r; lia).
    assert (H16 : 10 ^ Z.of_N n <= 2 ^ (4 * Z.of_N n)).
    { rewrite Z.pow_mul_r by lia. apply Z.pow_le_mono_l. cbn. lia. }
    lia.
Qed.

Lemma F64_mul_comm (x y : F64.float) : F64.mul x y = F64.mul y x.
Proof.
  unfold F64.mul.
  destruct x as [sx|sx| |sx mx ex], y as [sy|sy| |sy my ey]; simpl;
    rewrite ?(xorb_comm sx sy); try reflexivity.
  now rewrite Pos.mul_comm, Z.add_comm.
Qed.

Lemma gt0_not_eq0 (n : pynum) : Num.gt0 n = true -> Num.eq0 n = false.
Proof.
  destruct n as [z|f]; simpl.
  - intros H. apply Z.ltb_lt in H. apply Z.eqb_neq. lia.
  - unfold F64.ltb, F64.is_zero, F64.eqb, SFltb, SFeqb, F64.zero.
    destruct f as [s|[|]| |[|] m e]; simpl; congruence.
Qed.

Lemma le0_not_gt0 (n : pynum) : Num.le0 n = true -> Num.gt0 n = false.
Proof.
  destruct n as [z|f]; simpl.
  - intros H. apply Z.leb_le in H. apply Z.ltb_ge. lia.
  - unfold F64.ltb, F64.leb, SFltb, SFleb, F64.zero.
    destruct f as [s|[|]| |[|] m e]; simpl; congruence.
Qed.

(* ================================================================== *)
(** ** Running effectful code step by step *)

Lemma bind_lift {A B} (r : result A) (k : A -> M B) (w : world) :
  bind (lift r) k w = match r with Ok a => k a w | Raise e => (Raise e, w) end.
Proof. unfold bind, lift. destruct r; reflexivity. Qed.

Lemma bind_ret {A B} (a : A) (k : A -> M B) (w : world) :
  bind (ret a) k w = k a w.
Proof. reflexivity. Qed.

Lemma bind_emit {B} (ev : event) (k : unit -> M B) (w : world) :
  bind (emit ev) k w = k tt (w ++ [ev]).
Proof. reflexivity. Qed.

Lemma bind_print {B} (out : console) (l : log_line) (k : unit -> M B)
      (w : world) :
  bind (print out l) k w
  = if forallb (showable out) (shown l) then k tt (w ++ [Print l])
    else (Raise ValueError, w).
Proof.
  unfold bind, print. destruct (forallb (showable out) (shown l)); reflexivity.
Qed.

(** The values of a line are printable: the line is printed. *)
Lemma bind_print_ok {B} (out : console) (l : log_line) (k : unit -> M B)
      (w : world) :
  forallb (showable out) (shown l) = true ->
  bind (print out l) k w = k tt (w ++ [Print l]).
Proof. intros H. now rewrite bind_print, H. Qed.

Lemma showable_float (out : console) (f : F64.float) :
  showable out (VFloat f) = true.
Proof. reflexivity. Qed.

(* ================================================================== *)
(** ** Code that only appends to the world *)

Section Writes.
Context {P : event -> Prop}.

Lemma writes_run {A} (m : M A) :
  writes P m -> forall w, fst (m w) = run m.
Proof.
  intros (r & evs & _ & H) w. unfold run. now rewrite (H w), (H []).
Qed.

Lemma writes_world {A} (m : M A) :
  writes P m -> exists evs, Forall P evs /\ forall w, snd (m w) = w ++ evs.
Proof.
  intros (r & evs & HP & H). exists evs. split; [exact HP|].
  intros w. now rewrite H.
Qed.

Lemma writes_ret {A} (a : A) : writes P (ret a).
Proof.
  exists (Ok a), []. split; [constructor|].
  intros w. unfold ret. now rewrite app_nil_r.
Qed.

Lemma writes_lift {A} (r : result A) : writes P (lift r).
Proof.
  exists r, []. split; [constructor|].
  intros w. unfold lift. now rewrite app_nil_r.
Qed.

Lemma writes_emit (ev : event) : P ev -> writes P (emit ev).
Proof.
  intros H. exists (Ok tt), [ev]. split; [now repeat constructor|].
  reflexivity.
Qed.

Lemma writes_bind {A B} (m : M A) (k : A -> M B) :
  writes P m -> (forall a, writes P (k a)) -> writes P (bind m k).
Proof.
  intros (r & evs & HP & Hm) Hk. destruct r as [a|e].
  - destruct (Hk a) as (r' & evs' & HP' & Hk').
    exists r', (evs ++ evs'). split; [now apply Forall_app|].
    intros w. unfold bind. now rewrite Hm, Hk', app_assoc.
  - exists (Raise e), evs. split; [exact HP|].
    intros w. unfold bind. now rewrite Hm.
Qed.

Lemma writes_try_except {A} (body : M A) (handler : pyexc -> option (M A)) :
  writes P body ->
  (forall e h, handler e = Some h -> writes P h) ->
  writes P (try_except body handler).
Proof.
  intros (r & evs & HP & Hm) Hh. destruct r as [a|e].
  - exists (Ok a), evs. split; [exact HP|].
    intros w. unfold try_except. now rewrite Hm.
  - destruct (handler e) as [h|] eqn:E.
    + destruct (Hh e h E) as (r' & evs' & HP' & Hh').
      exists r', (evs ++ evs'). split; [now apply Forall_app|].
      intros w. unfold try_except. now rewrite Hm, E, Hh', app_assoc.
    + exists (Raise e), evs. split; [exact HP|].
      intros w. unfold try_except. now rewrite Hm, E.
Qed.

Lemma writes_for_each {S A} (body : S -> A -> M S) (items : list A) :
  (forall st x, writes P (body st x)) ->
  forall st, writes P (for_each body st items).
Proof.
  intros Hb. induction items as [|x items IH]; intros st; cbn [for_each].
  - apply writes_ret.
  - apply writes_bind; [apply Hb | exact IH].
Qed.

End Writes.

Lemma is_print_no_report (ev : event) : is_print ev -> no_report ev.
Proof. destruct ev; simpl; tauto. Qed.

Lemma writes_weaken {A} (P Q : event -> Prop) (m : M A) :
  (forall ev, P ev -> Q ev) -> writes P m -> writes Q m.
Proof.
  intros HPQ (r & evs & HP & H). exists r, evs. split; [|exact H].
  eapply Forall_impl; eauto.
Qed.

Lemma writes_print {P : event -> Prop} (out : console) (l : log_line) :
  (forall ev, is_print ev -> P ev) -> writes P (print out l).
Proof.
  intros H. unfold print. destruct (forallb (showable out) (shown l)).
  - apply writes_emit, H. exact I.
  - apply writes_lift.
Qed.

Ltac writes_step :=
  first
    [ apply writes_ret
    | apply writes_lift
    | apply writes_print; solve [auto using is_print_no_report]
    | apply writes_emit; exact I
    | apply writes_bind; [|intros ?]
    | match goal with
      | |- writes _ (if ?b then _ else _) => destruct b
      | |- writes _ (let (_, _) := ?p in _) => destruct p
      | |- writes _ (match ?o with Some _ => _ | None => _ end) => destruct o
      end ].

Lemma writes_category_step (out : console) (request_tv : pyval)
      (st : pyval * bool) (v : pyval) :
  writes is_print (category_step out request_tv st v).
Proof. unfold category_step. repeat writes_step. Qed.

Lemma writes_calculate_index (out : console) (request_id categories : pyval) :
  writes is_print (calculate_index out request_id categories).
Proof.
  unfold calculate_index.
  repeat first [ writes_step
               | apply writes_for_each; intros; apply writes_category_step ].
Qed.

Lemma writes_index_calculator (out : console) (request_id request_data : pyval) :
  writes is_print (index_calculator out request_id request_data).
Proof.
  unfold index_calculator. repeat writes_step. apply writes_calculate_index.
Qed.

(* ================================================================== *)
(** ** What code returns, and which exceptions it raises *)

Lemma rpost_rbind {A B} (r : result A) (k : A -> result B)
      (Q : A -> Prop) (Q' : B -> Prop) :
  rpost r Q -> (forall a, Q a -> rpost (k a) Q') -> rpost (rbind r k) Q'.
Proof. destruct r; simpl; auto. Qed.

Lemma post_ret {A} (a : A) (Q : A -> Prop) : Q a -> post (ret a) Q.
Proof. intros H w. exact H. Qed.

Lemma post_lift {A} (r : result A) (Q : A -> Prop) : rpost r Q -> post (lift r) Q.
Proof. intros H w. exact H. Qed.

Lemma post_print (out : console) (l : log_line) : post (print out l) any.
Proof.
  intros w. unfold print. destruct (forallb (showable out) (shown l)).
  - exact I.
  - reflexivity.
Qed.

Lemma post_bind {A B} (m : M A) (k : A -> M B) (Q : A -> Prop) (Q' : B -> Prop) :
  post m Q -> (forall a, Q a -> post (k a) Q') -> post (bind m k) Q'.
Proof.
  intros Hm Hk w. unfold bind. specialize (Hm w).
  destruct (m w) as [[a|e] w']; simpl in *.
  - now apply Hk.
  - exact Hm.
Qed.

Lemma post_bind_ok {A B} (a : A) (k : A -> M B) (Q : B -> Prop) :
  post (k a) Q -> post (bind (lift (Ok a)) k) Q.
Proof. intros H w. apply H. Qed.

Lemma post_for_each {S A} (body : S -> A -> M S) (Inv : S -> Prop) (items : list A) :
  (forall st x, Inv st -> post (body st x) Inv) ->
  forall st, Inv st -> post (for_each body st items) Inv.
Proof.
  intros Hb. induction items as [|x items IH]; intros st Hst; cbn [for_each].
  - now apply post_ret.
  - eapply post_bind; [now apply Hb | exact IH].
Qed.

Section Operators.

Lemma rpost_to_float (n : pynum) : rpost (Num.to_float n) any.
Proof.
  destruct n as [z|f]; simpl; [|exact I].
  destruct (F64.is_inf (F64.of_Z z)); simpl; auto. exact I.
Qed.

Lemma rpost_arith opz opf (a b : pynum) : rpost (Num.arith opz opf a b) any.
Proof.
  unfold Num.arith.
  destruct a, b; try exact I;
    (eapply rpost_rbind; [apply rpost_to_float|intros ? _];
     eapply rpost_rbind; [apply rpost_to_float|intros ? _]; exact I).
Qed.

Lemma rpost_num_truediv (a b : pynum) : rpost (Num.truediv a b) any.
Proof.
  assert (G : forall x y,
             rpost (rbind (Num.to_float x) (fun x' =>
                    rbind (Num.to_float y) (fun y' =>
                    if F64.is_zero y' then Raise ZeroDivisionError
                    else Ok (F64.div x' y')))) any).
  { intros x y.
    eapply rpost_rbind; [apply rpost_to_float|intros ? _].
    eapply rpost_rbind; [apply rpost_to_float|intros y' _].
    destruct (F64.is_zero y'); simpl; auto. exact I. }
  unfold Num.truediv. destruct a as [x|x], b as [y|y]; try apply G.
  destruct (y =? 0); simpl; auto.
  destruct (F64.is_inf (F64.div_Z x y)); simpl; auto. exact I.
Qed.

Lemma rpost_get (obj : pyval) (k : string) (default : pyval) :
  rpost (Py.get obj k default) any.
Proof.
  destruct obj; simpl; auto. destruct (Py.lookup k d); exact I.
Qed.

Lemma rpost_len (v : pyval) : rpost (Py.len v) any.
Proof. destruct v; simpl; auto; exact I. Qed.

Lemma rpost_iter (v : pyval) : rpost (Py.iter v) any.
Proof. destruct v; simpl; auto; exact I. Qed.

Lemma rpost_binop op (a b : pyval) :
  (forall x y, rpost (op x y) any) -> rpost (Py.binop op a b) any.
Proof.
  intros Hop. unfold Py.binop.
  destruct (as_num a), (as_num b); simpl; auto.
  eapply rpost_rbind; [apply Hop|]. intros; exact I.
Qed.

Lemma rpost_add (a b : pyval) : rpost (Py.add a b) any.
Proof. apply rpost_binop. apply rpost_arith. Qed.

Lemma rpost_sub (a b : pyval) : rpost (Py.sub a b) any.
Proof. apply rpost_binop. apply rpost_arith. Qed.

Lemma rpost_truediv (a b : pyval) : rpost (Py.truediv a b) is_float.
Proof.
  unfold Py.truediv. destruct (as_num a), (as_num b); simpl; auto.
  eapply rpost_rbind; [apply rpost_num_truediv|].
  intros q _. now exists q.
Qed.

Lemma rpost_gt0 (v : pyval) : rpost (Py.gt0 v) any.
Proof. unfold Py.gt0. destruct (as_num v); simpl; auto. exact I. Qed.

Lemma rpost_field_or_0 (cat : pyval) (k : string) : rpost (field_or_0 cat k) any.
Proof.
  unfold field_or_0. eapply rpost_rbind; [apply rpost_get|]. intros; exact I.
Qed.

Lemma rpost_sum_user_spent (items : list pyval) :
  forall acc, rpost (sum_user_spent acc items) any.
Proof.
  induction items as [|cat items IH]; intros acc; cbn [sum_user_spent].
  - exact I.
  - eapply rpost_rbind; [apply rpost_field_or_0|intros x _].
    eapply rpost_rbind; [apply rpost_add|intros acc' _]. apply IH.
Qed.

Lemma mul_floats (x y : F64.float) :
  Py.mul (VFloat x) (VFloat y) = Ok (VFloat (F64.mul x y)).
Proof. reflexivity. Qed.

Lemma add_floats (x y : F64.float) :
  Py.add (VFloat x) (VFloat y) = Ok (VFloat (F64.add x y)).
Proof. reflexivity. Qed.

Lemma mul_float_100 (x : F64.float) :
  Py.mul (VFloat x) (VInt 100) = Ok (VFloat (F64.mul x (F64.of_Z 100))).
Proof. reflexivity. Qed.

End Operators.

Section Shape.

Variable out : console.
Variable request_id : pyval.

Lemma post_category_step (tv : pyval) (st : pyval * bool) (v : pyval) :
  is_float (fst st) ->
  post (category_step out tv st v) (fun st' => is_float (fst st')).
Proof.
  destruct st as [personal_cpi flag]. cbn [fst]. intros [acc ->].
  unfold category_step.
  eapply post_bind; [apply post_lift, rpost_field_or_0|intros user_spent _].
  eapply post_bind; [apply post_lift, rpost_field_or_0|intros base_price _].
  eapply post_bind; [apply post_lift, rpost_gt0|intros base_ok _].
  eapply post_bind with (Q := any).
  { destruct base_ok; [apply post_lift, rpost_gt0 | now apply post_ret]. }
  intros [|] _; [|apply post_ret; now exists acc].
  eapply post_bind; [apply post_lift, rpost_truediv|intros weight [wt ->]].
  eapply post_bind; [apply post_lift, rpost_sub|intros diff _].
  eapply post_bind; [apply post_lift, rpost_truediv|intros change [ch ->]].
  rewrite mul_floats. apply post_bind_ok.
  rewrite add_floats. apply post_bind_ok.
  eapply post_bind; [apply post_lift, rpost_get|intros id _].
  eapply post_bind; [apply post_print|intros _ _].
  apply post_ret. cbn [fst]. now eexists.
Qed.

Lemma post_calculate_index (categories : pyval) :
  post (calculate_index out request_id categories) (outcome_shape request_id).
Proof.
  unfold calculate_index.
  destruct (negb (Py.truthy categories)).
  { eapply post_bind; [apply post_print|intros _ _].
    apply post_ret. now left. }
  eapply post_bind; [apply post_lift, rpost_iter|intros items _].
  eapply post_bind; [apply post_lift, rpost_sum_user_spent|intros total_spent _].
  eapply post_bind; [apply post_print|intros _ _].
  destruct (Py.eq0 total_spent).
  { eapply post_bind; [apply post_print|intros _ _].
    apply post_ret. now left. }
  eapply post_bind.
  { apply post_for_each with (Inv := fun st => is_float (fst st)).
    - intros st x. apply post_category_step.
    - now exists F64.zero. }
  intros [personal_cpi [|]] [s Hs]; cbn [fst negb] in *; subst.
  - rewrite mul_float_100. apply post_bind_ok.
    cbn [Py.round2]. apply post_bind_ok.
    eapply post_bind; [apply post_print|intros _ _].
    apply post_ret. right. now eexists.
  - eapply post_bind; [apply post_print|intros _ _].
    apply post_ret. now left.
Qed.

Lemma post_index_calculator (request_data : pyval) :
  post (index_calculator out request_id request_data) (outcome_shape request_id).
Proof.
  unfold index_calculator.
  eapply post_bind; [apply post_lift, rpost_get|intros categories _].
  eapply post_bind; [apply post_lift, rpost_get|intros comparison_date _].
  eapply post_bind; [apply post_lift, rpost_len|intros n _].
  eapply post_bind; [apply post_print|intros _ _].
  apply post_calculate_index.
Qed.

End Shape.

(* ================================================================== *)
(** ** The code on well-formed data: it computes the specified outcome *)

Section OnRequestData.
Local Open Scope result_scope.

Lemma field_or_0_dict (d : list (string * pyval)) (key : string) :
  field_or_0 (VDict d) key = Ok (Py.or (lookup_or d key (VInt 0)) (VInt 0)).
Proof.
  unfold field_or_0, Py.get, lookup_or.
  destruct (Py.lookup key d); reflexivity.
Qed.

Lemma as_category_inv (v : pyval) (c : CategoryRecord) :
  as_category v = Some c ->
  exists d, v = VDict d
            /\ read_field d "userSpent" = Some (userSpent c)
            /\ read_field d "basePrice" = Some (basePrice c).
Proof.
  destruct v as [| | | | | |d]; try discriminate. simpl.
  destruct (read_field d "userSpent") as [u|] eqn:Eu; try discriminate.
  destruct (read_field d "basePrice") as [b|] eqn:Eb; try discriminate.
  intros H. injection H as <-. exists d. auto.
Qed.

Lemma as_category_id (d : list (string * pyval)) (c : CategoryRecord) :
  as_category (VDict d) = Some c -> cat_id c = lookup_or d "id" VNone.
Proof.
  simpl.
  destruct (read_field d "userSpent") as [u|]; try discriminate.
  destruct (read_field d "basePrice") as [b|]; try discriminate.
  intros H. now injection H as <-.
Qed.

Lemma as_categories_cons (v : pyval) (l : list pyval) (cs : list CategoryRecord) :
  as_categories (v :: l) = Some cs ->
  exists c cs', cs = c :: cs' /\ as_category v = Some c
                /\ as_categories l = Some cs'.
Proof.
  simpl. destruct (as_category v) as [c|]; try discriminate.
  destruct (as_categories l) as [cs'|]; try discriminate.
  intros H. injection H as <-. eauto.
Qed.

Lemma sum_user_spent_spec (items : list pyval) :
  forall (cs : list CategoryRecord) (acc : pynum),
    as_categories items = Some cs ->
    sum_user_spent (of_num acc) items
    = (n <- Spec.sum_from acc (map userSpent cs) ;; Ok (of_num n)).
Proof.
  induction items as [|v items IH]; intros cs acc H.
  - injection H as <-. reflexivity.
  - apply as_categories_cons in H as (c & cs' & -> & Hc & Hcs).
    apply as_category_inv in Hc as (d & -> & Hu & _).
    cbn [sum_user_spent map Spec.sum_from].
    rewrite field_or_0_dict. cbn [rbind].
    unfold Py.add, Py.binop. rewrite as_num_of_num.
    unfold read_field in Hu. rewrite Hu.
    destruct (Num.add acc (userSpent c)) as [acc'|e]; cbn [rbind].
    + now apply IH.
    + reflexivity.
Qed.

Lemma get_dict (d : list (string * pyval)) (key : string) (default : pyval) :
  Py.get (VDict d) key default = Ok (lookup_or d key default).
Proof. unfold Py.get, lookup_or. destruct (Py.lookup key d); reflexivity. Qed.

Variable out : console.
Variable request_id : pyval.

(** One round of the loop on a well-formed category. *)
Lemma category_step_spec (tv : pyval) (t : pynum) (v : pyval)
      (c : CategoryRecord) (acc : F64.float) (flag : bool) (w : world) :
  as_num tv = Some t ->
  as_category v = Some c ->
  exists w',
    category_step out tv (VFloat acc, flag) v w
    = (if Spec.valid c
       then x <- Spec.contribution t c ;;
            if showable out (cat_id c)
            then Ok (VFloat (F64.add acc x), true)
            else Raise ValueError
       else Ok (VFloat acc, flag), w').
Proof.
  intros Ht Hc.
  destruct (as_category_inv _ _ Hc) as (d & -> & Hu & Hb).
  rewrite (as_category_id _ _ Hc).
  unfold read_field in Hu, Hb.
  unfold category_step.
  rewrite bind_lift, field_or_0_dict, bind_lift, field_or_0_dict.
  rewrite bind_lift. unfold Py.gt0 at 1. rewrite Hb.
  unfold Spec.valid.
  destruct (Num.gt0 (basePrice c)); cbn [andb]; cbv beta iota.
  2:{ rewrite bind_ret. eexists; reflexivity. }
  rewrite bind_lift. unfold Py.gt0. rewrite Hu.
  destruct (Num.gt0 (userSpent c)); cbv beta iota.
  2:{ eexists; reflexivity. }
  rewrite bind_lift.
  unfold Spec.contribution, Spec.weight, Spec.change.
  unfold Py.truediv at 1. rewrite Hu, Ht.
  destruct (Num.truediv (userSpent c) t) as [wt|e]; cbn [rbind].
  2:{ eexists; reflexivity. }
  rewrite bind_lift. unfold Py.sub, Py.binop. rewrite Hu, Hb.
  destruct (Num.sub (userSpent c) (basePrice c)) as [diff|e]; cbn [rbind].
  2:{ eexists; reflexivity. }
  rewrite bind_lift. unfold Py.truediv. rewrite as_num_of_num, Hb.
  destruct (Num.truediv diff (basePrice c)) as [ch|e]; cbn [rbind].
  2:{ eexists; reflexivity. }
  rewrite bind_lift. cbn [Py.mul Py.binop as_num Num.mul Num.arith
                          Num.to_float rbind of_num].
  rewrite bind_lift. cbn [Py.add Py.binop as_num Num.add Num.arith
                          Num.to_float rbind of_num].
  rewrite get_dict, bind_lift.
  rewrite bind_print. cbn [shown forallb].
  rewrite !showable_float, !andb_true_r.
  destruct (showable out (lookup_or d "id" VNone)); eexists; reflexivity.
Qed.

(** The whole loop: the sum over exactly the valid categories, with the
    ids printed on the way. *)
Lemma for_each_category_spec (tv : pyval) (t : pynum) (items : list pyval) :
  as_num tv = Some t ->
  forall (cs : list CategoryRecord) (acc : F64.float) (flag : bool) (w : world),
    as_categories items = Some cs ->
    exists w',
      for_each (category_step out tv) (VFloat acc, flag) items w
      = (s <- Printed.sigma out t acc (filter Spec.valid cs) ;;
         Ok (VFloat s, flag || existsb Spec.valid cs)%bool, w').
Proof.
  intros Ht. induction items as [|v items IH]; intros cs acc flag w H.
  - injection H as <-. cbn. rewrite orb_false_r. eexists; reflexivity.
  - apply as_categories_cons in H as (c & cs' & -> & Hc & Hcs).
    cbn [for_each filter existsb].
    destruct (category_step_spec tv t v c acc flag w Ht Hc) as (w1 & E).
    unfold bind at 1. rewrite E.
    destruct (Spec.valid c); cbn [Printed.sigma orb].
    + destruct (Spec.contribution t c) as [x|e]; cbn [rbind].
      * destruct (showable out (cat_id c)).
        -- destruct (IH cs' (F64.add acc x) true w1 Hcs) as (w2 & E2).
           rewrite E2. rewrite orb_true_r. cbn [orb]. eexists; reflexivity.
        -- eexists; reflexivity.
      * eexists; reflexivity.
    + apply IH, Hcs.
Qed.

Lemma eq0_of_num (n : pynum) : Py.eq0 (of_num n) = Num.eq0 n.
Proof. unfold Py.eq0. now rewrite as_num_of_num. Qed.

Lemma calculate_index_spec (l : list pyval) (cs : list CategoryRecord)
      (cd : pyval) (w : world) :
  as_categories l = Some cs ->
  showable out request_id = true ->
  showable out cd = true ->
  fst (calculate_index out request_id (VList l) w)
  = Printed.outcome out request_id {| categories := cs; comparisonDate := cd |}.
Proof.
  intros H Hid Hcd. unfold calculate_index, Printed.outcome.
  cbn [categories comparisonDate]. rewrite Hid, Hcd. cbn [andb].
  destruct l as [|v l'].
  { injection H as <-. cbn [Py.truthy negb].
    rewrite bind_print. cbn [shown forallb]. now rewrite Hid. }
  destruct (as_categories_cons _ _ _ H) as (c & cs' & -> & _ & _).
  cbn [Py.truthy negb Py.iter]. rewrite bind_lift, bind_lift.
  unfold Spec.totalSpent. cbn [categories].
  change (VInt 0) with (of_num (NInt 0)).
  rewrite (sum_user_spent_spec _ _ _ H).
  destruct (Spec.sum_from (NInt 0) (map userSpent (c :: cs'))) as [t|e];
    cbn [rbind]; [|reflexivity].
  rewrite bind_print. cbn [shown forallb]. rewrite Hid, andb_true_r. cbn [andb].
  destruct (showable out (of_num t)); [|reflexivity].
  rewrite eq0_of_num.
  destruct (Num.eq0 t).
  { rewrite bind_print. cbn [shown forallb]. now rewrite Hid. }
  unfold bind at 1.
  destruct (for_each_category_spec (of_num t) t (v :: l') (as_num_of_num t)
              (c :: cs') F64.zero false
              (w ++ [Print (LogTotalSpent request_id (of_num t))]) H)
    as (w' & ->).
  destruct (Printed.sigma out t F64.zero (filter Spec.valid (c :: cs')))
    as [s|e]; cbn [rbind]; [|reflexivity].
  cbn [orb]. destruct (existsb Spec.valid (c :: cs')); cbn [negb].
  - rewrite mul_float_100, bind_lift. cbn [Py.round2].
    rewrite bind_lift, bind_print. cbn [shown forallb].
    rewrite Hid, showable_float. cbn [andb ret fst].
    now rewrite F64_mul_comm.
  - rewrite bind_print. cbn [shown forallb]. now rewrite Hid.
Qed.

(** On well-formed data the code computes the outcome of the
    specification with the prints in their places, exceptions included. *)
Lemma index_calculator_spec (payload : pyval) (d : RequestData) :
  as_request_data payload = Some d ->
  run (index_calculator out request_id payload) = Printed.outcome out request_id d.
Proof.
  destruct payload as [| | | | | |kv]; try discriminate. cbn [as_request_data].
  destruct (lookup_or kv "categories" (VList [])) as [| | | | |l|] eqn:El;
    try discriminate.
  destruct (as_categories l) as [cs|] eqn:Ecs; try discriminate.
  intros H. injection H as <-.
  unfold run, index_calculator.
  rewrite bind_lift, get_dict, El, bind_lift, get_dict, bind_lift.
  cbn [Py.len]. rewrite bind_print. cbn [shown forallb]. rewrite andb_true_r.
  destruct (showable out request_id) eqn:Hid; cbn [andb].
  2:{ unfold Printed.outcome. now rewrite Hid. }
  destruct (showable out (lookup_or kv "comparisonDate" VNone)) eqn:Hcd.
  2:{ unfold Printed.outcome. cbn [comparisonDate]. rewrite Hid, Hcd.
      reflexivity. }
  now apply calculate_index_spec.
Qed.

(** What is printed on the way only takes outcomes away. *)
Lemma printed_sigma_ok (t : pynum) (l : list CategoryRecord) :
  forall acc s,
    Printed.sigma out t acc l = Ok s ->
    Spec.sigma t acc l = Ok s
    /\ Forall (fun c => showable out (cat_id c) = true) l.
Proof.
  induction l as [|c l IH]; intros acc s H.
  - split; [exact H|constructor].
  - cbn [Printed.sigma Spec.sigma] in *.
    destruct (Spec.contribution t c) as [x|e]; cbn [rbind] in *; [|discriminate].
    destruct (showable out (cat_id c)) eqn:Hc; [|discriminate].
    destruct (IH _ _ H) as [Hs Hl]. split; [exact Hs|now constructor].
Qed.

Lemma printed_sigma_printable (t : pynum) (l : list CategoryRecord) :
  Forall (fun c => showable out (cat_id c) = true) l ->
  forall acc, Printed.sigma out t acc l = Spec.sigma t acc l.
Proof.
  induction 1 as [|c l Hc _ IH]; intros acc; [reflexivity|].
  cbn [Printed.sigma Spec.sigma].
  destruct (Spec.contribution t c) as [x|e]; cbn [rbind]; [|reflexivity].
  rewrite Hc. apply IH.
Qed.

Lemma Forall_filter_valid (P : CategoryRecord -> Prop) (l : list CategoryRecord) :
  Forall P (filter Spec.valid l) <-> Forall (fun c => Spec.valid c = true -> P c) l.
Proof.
  induction l as [|c l IH]; [split; constructor|].
  cbn [filter]. destruct (Spec.valid c) eqn:Hv; split; intros H.
  - inversion H; subst. constructor; [auto|now apply IH].
  - inversion H; subst. constructor; [auto|now apply IH].
  - constructor; [congruence|now apply IH].
  - inversion H; subst. now apply IH.
Qed.

Lemma printed_outcome_printable (d : RequestData) :
  printable out request_id d ->
  Printed.outcome out request_id d = Spec.outcome request_id d.
Proof.
  intros (Hid & Hcd & Ht & Hids). unfold Printed.outcome, Spec.outcome.
  rewrite Hid, Hcd. cbn [andb].
  destruct (categories d) as [|c cs] eqn:Ec; [reflexivity|].
  rewrite <- Ec in Hids |- *.
  destruct (Spec.totalSpent d) as [t|e] eqn:Et; cbn [rbind]; [|reflexivity].
  rewrite (Ht t eq_refl).
  destruct (Num.eq0 t); [reflexivity|].
  unfold Spec.personalIndex.
  rewrite printed_sigma_printable; [|now apply Forall_filter_valid].
  destruct (Spec.sigma t F64.zero (filter Spec.valid (categories d)));
    reflexivity.
Qed.

Lemma printed_outcome_ok (d : RequestData) (v : pyval) :
  Printed.outcome out request_id d = Ok v -> Spec.outcome request_id d = Ok v.
Proof.
  unfold Printed.outcome, Spec.outcome.
  destruct (showable out request_id && showable out (comparisonDate d))%bool;
    [|discriminate].
  destruct (categories d) as [|c cs] eqn:Ec; [auto|]. rewrite <- Ec.
  destruct (Spec.totalSpent d) as [t|e]; cbn [rbind]; [|discriminate].
  destruct (showable out (of_num t)); [|discriminate].
  destruct (Num.eq0 t); [auto|].
  unfold Spec.personalIndex.
  destruct (Printed.sigma out t F64.zero (filter Spec.valid (categories d)))
    as [s|e] eqn:Es; cbn [rbind]; [|discriminate].
  destruct (printed_sigma_ok _ _ _ _ Es) as [-> _]. auto.
Qed.

(** A success went through every print. *)
Lemma printed_outcome_success (d : RequestData) (v : pyval) :
  Printed.outcome out request_id d = Ok v ->
  v <> failure request_id ->
  printable out request_id d.
Proof.
  unfold Printed.outcome. intros H Hv.
  destruct (showable out request_id) eqn:Hid; [|discriminate].
  destruct (showable out (comparisonDate d)) eqn:Hcd; [|discriminate].
  cbn [andb] in H.
  destruct (categories d) as [|c cs] eqn:Ec.
  { injection H as <-. now destruct Hv. }
  rewrite <- Ec in H.
  destruct (Spec.totalSpent d) as [t|e] eqn:Et; cbn [rbind] in H; [|discriminate].
  destruct (showable out (of_num t)) eqn:Hst; [|discriminate].
  destruct (Num.eq0 t).
  { injection H as <-. now destruct Hv. }
  destruct (Printed.sigma out t F64.zero (filter Spec.valid (categories d)))
    as [s|e] eqn:Es; cbn [rbind] in H; [|discriminate].
  destruct (printed_sigma_ok _ _ _ _ Es) as [_ Hids].
  repeat split; auto.
  - intros t' Ht'. rewrite Et in Ht'. now injection Ht' as <-.
  - now apply Forall_filter_valid in Hids.
Qed.

End OnRequestData.

(* ================================================================== *)
(** ** The task body as a whole *)

Section TaskBody.

Variable out : console.
Variable request_id : pyval.
Variable net : network.

Lemma writes_http_get (u : url) (timeout : Z) (h : headers) :
  writes no_report (http_get net u timeout h).
Proof.
  exists (on_get net u), [HttpGet u timeout h].
  split; [repeat constructor|reflexivity].
Qed.

Lemma writes_fetch_and_calculate :
  writes no_report (fetch_and_calculate out request_id net).
Proof.
  unfold fetch_and_calculate.
  repeat first
         [ apply writes_http_get
         | eapply writes_weaken;
           [apply is_print_no_report | apply writes_index_calculator]
         | writes_step ].
Qed.

Lemma writes_after_error (l : log_line) (e : pyexc) :
  writes no_report (after_error out request_id l e).
Proof. unfold after_error. repeat writes_step. Qed.

Lemma writes_calculate_personal_cpi :
  writes no_report (calculate_personal_cpi out request_id net).
Proof.
  unfold calculate_personal_cpi. writes_step; [writes_step|].
  apply writes_try_except; [apply writes_fetch_and_calculate|].
  intros e h. destruct (is_RequestException e); [|destruct (is_Exception e)];
    intros H; try discriminate; injection H as <-; apply writes_after_error.
Qed.

(** Nothing is fetched for an identifier that line 38 cannot print. *)
Lemma run_fetch_and_calculate :
  run (fetch_and_calculate out request_id net)
  = if showable out request_id then fetch_outcome out request_id net
    else Raise ValueError.
Proof.
  unfold run, fetch_and_calculate, fetch_outcome.
  rewrite bind_print. cbn [shown forallb]. rewrite andb_true_r.
  destruct (showable out request_id) eqn:Hid; [|reflexivity].
  unfold bind at 1, http_get.
  destruct (on_get net (data_url request_id)) as [r|e]; [|reflexivity].
  rewrite bind_print. cbn [shown forallb].
  destruct (status_code r =? 200).
  - rewrite bind_lift. destruct (json r) as [payload|e]; [|reflexivity].
    apply (writes_run _ (writes_index_calculator out request_id payload)).
  - rewrite bind_print. cbn [shown forallb]. rewrite Hid. cbn [andb].
    rewrite bind_print. cbn [shown forallb]. rewrite andb_true_r.
    destruct (showable out (VStr (text r))); reflexivity.
Qed.

(** The handler of line 125 prints the identifier again, outside any
    [try]: the exception it raises then leaves the function. *)
Lemma run_calculate_personal_cpi (w : world) :
  fst (calculate_personal_cpi out request_id net w)
  = if showable out request_id
    then caught request_id (fetch_outcome out request_id net)
    else Raise ValueError.
Proof.
  unfold calculate_personal_cpi. rewrite bind_emit. unfold try_except.
  pose proof run_fetch_and_calculate as R.
  rewrite <- (writes_run _ writes_fetch_and_calculate (w ++ [Sleep 30])) in R.
  destruct (fetch_and_calculate out request_id net (w ++ [Sleep 30]))
    as [[v|e] w']; cbn [fst] in R.
  - destruct (showable out request_id); [|discriminate].
    now rewrite <- R.
  - destruct (showable out request_id) eqn:Hid.
    + rewrite <- R. cbn [caught].
      destruct e; cbn [is_RequestException is_Exception]; unfold after_error;
        rewrite ?bind_print; cbn [shown forallb]; rewrite ?Hid; reflexivity.
    + injection R as ->. cbn [is_RequestException is_Exception].
      unfold after_error. rewrite bind_print. cbn [shown forallb].
      now rewrite Hid.
Qed.

Lemma calculate_personal_cpi_unprintable (w : world) :
  showable out request_id = false ->
  calculate_personal_cpi out request_id net w = (Raise ValueError, w ++ [Sleep 30]).
Proof.
  intros Hid. unfold calculate_personal_cpi. rewrite bind_emit.
  unfold try_except, fetch_and_calculate.
  rewrite bind_print. cbn [shown forallb]. rewrite Hid.
  cbn [andb is_RequestException is_Exception]. unfold after_error.
  rewrite bind_print. cbn [shown forallb]. now rewrite Hid.
Qed.

Lemma calculate_personal_cpi_printed_id (w : world) (v : pyval) :
  fst (calculate_personal_cpi out request_id net w) = Ok v ->
  showable out request_id = true.
Proof.
  rewrite run_calculate_personal_cpi.
  now destruct (showable out request_id).
Qed.

(** The calculation raises nothing that the task body does not catch. *)
Lemma index_calculator_raises (payload : pyval) (e : pyexc) :
  run (index_calculator out request_id payload) = Raise e -> is_Exception e = true.
Proof.
  intros H. pose proof (post_index_calculator out request_id payload []) as G.
  unfold run in H. now rewrite H in G.
Qed.

Lemma index_calculator_returns (payload v : pyval) :
  run (index_calculator out request_id payload) = Ok v ->
  outcome_shape request_id v.
Proof.
  intros H. pose proof (post_index_calculator out request_id payload []) as G.
  unfold run in H. now rewrite H in G.
Qed.

(** Whatever the task body returns is one of the two records. *)
Lemma calculate_personal_cpi_returns (w : world) (v : pyval) :
  fst (calculate_personal_cpi out request_id net w) = Ok v ->
  outcome_shape request_id v.
Proof.
  rewrite run_calculate_personal_cpi.
  destruct (showable out request_id); [|discriminate].
  unfold caught, fetch_outcome.
  assert (F : outcome_shape request_id (failure request_id)) by now left.
  destruct (on_get net (data_url request_id)) as [r|e].
  2:{ destruct (is_Exception e); intros H; try discriminate.
      now injection H as <-. }
  destruct (status_code r =? 200).
  2:{ destruct (showable out (VStr (text r)));
        intros H; now injection H as <-. }
  destruct (json r) as [payload|e].
  2:{ destruct (is_Exception e); intros H; try discriminate.
      now injection H as <-. }
  destruct (run (index_calculator out request_id payload)) as [v'|e] eqn:E.
  - intros H. injection H as <-. now apply index_calculator_returns in E.
  - destruct (is_Exception e); intros H; try discriminate.
    now injection H as <-.
Qed.

(** On fetched well-formed data the task body returns the outcome of the
    specification as far as the prints let it, with a failure record in
    place of an exception. *)
Lemma calculate_personal_cpi_printed (payload : pyval) (d : RequestData)
      (w : world) :
  showable out request_id = true ->
  fetched net request_id payload ->
  as_request_data payload = Some d ->
  fst (calculate_personal_cpi out request_id net w)
  = match Printed.outcome out request_id d with
    | Ok v => Ok v
    | Raise _ => Ok (failure request_id)
    end.
Proof.
  intros Hid (r & Hget & Hst & Hjson) Hd.
  rewrite run_calculate_personal_cpi, Hid. unfold fetch_outcome.
  rewrite Hget, Hst, Hjson. cbn [Z.eqb Pos.eqb].
  rewrite <- (index_calculator_spec out request_id payload d Hd).
  destruct (run (index_calculator out request_id payload)) as [v|e] eqn:E;
    [reflexivity|].
  apply index_calculator_raises in E. cbn [caught]. now rewrite E.
Qed.

Lemma calculate_personal_cpi_spec (payload : pyval) (d : RequestData)
      (w : world) :
  fetched net request_id payload ->
  as_request_data payload = Some d ->
  printable out request_id d ->
  fst (calculate_personal_cpi out request_id net w)
  = match Spec.outcome request_id d with
    | Ok v => Ok v
    | Raise _ => Ok (failure request_id)
    end.
Proof.
  intros Hf Hd Hp.
  rewrite (calculate_personal_cpi_printed payload d w (proj1 Hp) Hf Hd).
  now rewrite printed_outcome_printable.
Qed.

(** A task body that returns something else than the failure record
    fetched well-formed data whose outcome is that record. *)
Lemma calculate_personal_cpi_outcome (payload : pyval) (d : RequestData)
      (w : world) (v : pyval) :
  fetched net request_id payload ->
  as_request_data payload = Some d ->
  fst (calculate_personal_cpi out request_id net w) = Ok v ->
  v = failure request_id \/ Spec.outcome request_id d = Ok v.
Proof.
  intros Hf Hd H.
  pose proof (calculate_personal_cpi_printed_id w v H) as Hid.
  rewrite (calculate_personal_cpi_printed payload d w Hid Hf Hd) in H.
  destruct (Printed.outcome out request_id d) as [v'|e] eqn:E.
  - injection H as <-. right. now apply (printed_outcome_ok out).
  - injection H as <-. now left.
Qed.

End TaskBody.

(* ================================================================== *)
(** ** Reports *)

Lemma reports_app (w w' : world) : reports (w ++ w') = reports w ++ reports w'.
Proof. apply flat_map_app. Qed.

Lemma reports_no_report (evs : list event) : Forall no_report evs -> reports evs = [].
Proof.
  induction 1 as [|ev evs Hev _ IH]; [reflexivity|].
  cbn [reports flat_map]. fold (reports evs). rewrite IH.
  destruct ev; simpl in *; tauto.
Qed.

Section Callback.

Variable out : console.
Variable net : network.

(** The callback reports a returned record that lines 145 and 146 can
    print once, whatever the collaborator answers. *)
Lemma result_callback_reports (request_id personal_cpi ok : pyval) (w : world) :
  showable out request_id = true ->
  showable out personal_cpi = true ->
  showable out ok = true ->
  reports (snd (result_callback out net
                  (Finished (VDict [("id", request_id);
                                    ("personalCPI", personal_cpi);
                                    ("success", ok)])) w))
  = reports w ++ [(result_url request_id, payload_of personal_cpi ok)].
Proof.
  intros Hid Hcpi Hok.
  unfold result_callback, task_outcome, send_result, try_except, bind, lift,
    print, emit, ret, http_put, payload_of.
  cbn [future_result Py.getitem Py.get Py.lookup String.eqb Ascii.eqb
       Bool.eqb fst snd shown forallb].
  rewrite Hid, Hcpi, Hok.
  cbn [andb future_result Py.getitem Py.get Py.lookup String.eqb Ascii.eqb
       Bool.eqb fst snd].
  rewrite ?Hid. cbn [andb].
  destruct (on_put net _ _) as [r|e].
  - destruct (status_code r =? 200); cbn [snd fst];
      [|destruct (showable out (VStr (text r))); cbn [andb lift is_Exception fst snd]];
      rewrite !reports_app; cbn; now rewrite !app_nil_r.
  - destruct e; cbn [is_Exception snd];
      rewrite !reports_app; cbn; now rewrite !app_nil_r.
Qed.

(** A task that raised or was cancelled is not reported. *)
Lemma result_callback_silent (task : future) (w : world) :
  (forall v, task <> Finished v) ->
  reports (snd (result_callback out net task w)) = reports w.
Proof.
  intros H. destruct task as [v|e|]; [now destruct (H v)| |reflexivity].
  unfold result_callback, task_outcome, try_except, bind, lift, print, emit, ret.
  cbn [future_result].
  destruct e; cbn; rewrite ?reports_app; cbn; now rewrite ?app_nil_r.
Qed.

Lemma run_task_reports_failure (request_id : pyval) (w : world) :
  fst (calculate_personal_cpi out request_id net w) = Ok (failure request_id) ->
  reports (snd (run_task out net request_id w))
  = reports w ++ [(result_url request_id, payload_of VNone (VBool false))].
Proof.
  intros H. unfold run_task.
  pose proof (calculate_personal_cpi_printed_id _ _ _ _ _ H) as Hid.
  destruct (writes_world _ (writes_calculate_personal_cpi out request_id net))
    as (evs & Hevs & Hw).
  specialize (Hw w).
  destruct (calculate_personal_cpi out request_id net w) as [r w'].
  cbn [fst snd] in *. subst r w'.
  unfold failure.
  rewrite (result_callback_reports request_id VNone (VBool false) _ Hid
             eq_refl eq_refl), reports_app.
  now rewrite (reports_no_report _ Hevs), app_nil_r.
Qed.

End Callback.

Lemma fetched_serving (request_id payload : pyval) :
  fetched (serving payload) request_id payload.
Proof. eexists. repeat split. Qed.

(* ================================================================== *)
(** ** Float data never overflows *)

Lemma add_float_field (a b : pynum) :
  float_field a -> float_field b ->
  exists c, Num.add a b = Ok c /\ float_field c.
Proof.
  destruct a as [x|x], b as [y|y]; cbn [float_field]; intros Ha Hb; subst.
  - exists (NInt 0). now split.
  - eexists. split; [reflexivity|exact I].
  - eexists. split; [reflexivity|exact I].
  - eexists. split; [reflexivity|exact I].
Qed.

Lemma sum_from_float_field (l : list pynum) :
  forall acc, float_field acc -> Forall float_field l ->
              exists t, Spec.sum_from acc l = Ok t /\ float_field t.
Proof.
  induction l as [|x l IH]; intros acc Hacc Hl; cbn [Spec.sum_from].
  - now exists acc.
  - inversion Hl as [|? ? Hx Hl']; subst.
    destruct (add_float_field acc x Hacc Hx) as (acc' & -> & Hacc').
    cbn [rbind]. now apply IH.
Qed.

Lemma gt0_float_field (n : pynum) :
  float_field n -> Num.gt0 n = true -> exists f, n = NFloat f /\ F64.is_zero f = false.
Proof.
  intros Hn Hpos. pose proof (gt0_not_eq0 n Hpos) as Hz.
  destruct n as [z|f]; cbn [float_field] in Hn.
  - subst. discriminate.
  - now exists f.
Qed.

Lemma contribution_float (t : pynum) (c : CategoryRecord) :
  float_field t -> Num.eq0 t = false ->
  float_field (userSpent c) -> float_field (basePrice c) ->
  Spec.valid c = true ->
  exists x, Spec.contribution t c = Ok x.
Proof.
  intros Ht Hz Hu Hb Hv. unfold Spec.valid in Hv.
  apply andb_true_iff in Hv as [Hbpos Hupos].
  destruct (gt0_float_field _ Hu Hupos) as (u & Eu & _).
  destruct (gt0_float_field _ Hb Hbpos) as (b & Eb & Hbz).
  unfold Spec.contribution, Spec.weight, Spec.change. rewrite Eu, Eb.
  destruct t as [z|ft]; cbn [float_field Num.eq0] in Ht, Hz.
  - subst. discriminate.
  - cbn [Num.truediv Num.sub Num.arith Num.to_float rbind].
    rewrite Hz. cbn [rbind]. rewrite Hbz. cbn [rbind]. now eexists.
Qed.

Lemma sigma_float (t : pynum) (l : list CategoryRecord) :
  float_field t -> Num.eq0 t = false ->
  Forall (fun c => float_field (userSpent c) /\ float_field (basePrice c)) l ->
  forall acc, exists s, Spec.sigma t acc (filter Spec.valid l) = Ok s.
Proof.
  intros Ht Hz Hl. induction Hl as [|c l [Hu Hb] _ IH]; intros acc.
  - now exists acc.
  - cbn [filter]. destruct (Spec.valid c) eqn:Hv; [|apply IH].
    cbn [Spec.sigma].
    destruct (contribution_float t c Ht Hz Hu Hb Hv) as (x & ->).
    cbn [rbind]. apply IH.
Qed.

(** On float data the sum and the formula always have a value. *)
Lemma float_data_evaluates (d : RequestData) :
  float_data d ->
  exists t, Spec.totalSpent d = Ok t
            /\ (Num.eq0 t = false -> exists v, Spec.personalIndex d t = Ok v).
Proof.
  intros Hd. unfold Spec.totalSpent.
  destruct (sum_from_float_field (map userSpent (categories d)) (NInt 0))
    as (t & Ht & Hft).
  { reflexivity. }
  { apply Forall_map. eapply Forall_impl; [|exact Hd]. now intros c [Hu _]. }
  exists t. split; [exact Ht|].
  intros Hz. unfold Spec.personalIndex.
  destruct (sigma_float t (categories d) Hft Hz Hd F64.zero) as (s & ->).
  cbn [rbind]. now eexists.
Qed.

(* ================================================================== *)
(** ** What a task reports *)

Section TaskReports.

Variable out : console.
Variable net : network.

(** A task whose body returned makes exactly one report, of the record
    returned. *)
Lemma run_task_reports (request_id : pyval) (w : world) (v : pyval) :
  fst (calculate_personal_cpi out request_id net w) = Ok v ->
  exists personal_cpi ok,
    v = VDict [("id", request_id); ("personalCPI", personal_cpi); ("success", ok)]
    /\ reports (snd (run_task out net request_id w))
       = reports w ++ [(result_url request_id, payload_of personal_cpi ok)].
Proof.
  intros H. unfold run_task.
  pose proof (calculate_personal_cpi_printed_id _ _ _ _ _ H) as Hid.
  pose proof (calculate_personal_cpi_returns _ _ _ _ _ H) as Hv.
  destruct (writes_world _ (writes_calculate_personal_cpi out request_id net))
    as (evs & Hevs & Hw).
  specialize (Hw w).
  destruct (calculate_personal_cpi out request_id net w) as [r w'].
  cbn [fst snd] in *. subst r w'.
  destruct Hv as [->|[f ->]]; unfold failure, success.
  - exists VNone, (VBool false). split; [reflexivity|].
    rewrite (result_callback_reports out net request_id VNone (VBool false) _
               Hid eq_refl eq_refl), reports_app.
    now rewrite (reports_no_report _ Hevs), app_nil_r.
  - exists (VFloat f), (VBool true). split; [reflexivity|].
    rewrite (result_callback_reports out net request_id (VFloat f) (VBool true) _
               Hid eq_refl eq_refl), reports_app.
    now rewrite (reports_no_report _ Hevs), app_nil_r.
Qed.

(** A task whose body raised makes no report. *)
Lemma run_task_silent (request_id : pyval) (w : world) (e : pyexc) :
  fst (calculate_personal_cpi out request_id net w) = Raise e ->
  reports (snd (run_task out net request_id w)) = reports w.
Proof.
  intros H. unfold run_task.
  destruct (writes_world _ (writes_calculate_personal_cpi out request_id net))
    as (evs & Hevs & Hw).
  specialize (Hw w).
  destruct (calculate_personal_cpi out request_id net w) as [r w'].
  cbn [fst snd] in *. subst r w'.
  rewrite result_callback_silent by discriminate.
  now rewrite reports_app, (reports_no_report _ Hevs), app_nil_r.
Qed.

(** The task body raises only when it cannot print the identifier, or
    for what the collaborator raises beside [Exception]. *)
Lemma calculate_personal_cpi_raises (request_id : pyval) (w : world) (e : pyexc) :
  fst (calculate_personal_cpi out request_id net w) = Raise e ->
  showable out request_id = false \/ is_Exception e = false.
Proof.
  rewrite run_calculate_personal_cpi.
  destruct (showable out request_id); [|now left].
  right. unfold caught in H.
  destruct (fetch_outcome out request_id net) as [v|e']; [discriminate|].
  destruct (is_Exception e') eqn:E; [discriminate|]. congruence.
Qed.

End TaskReports.

Ltac show_printable :=
  split; [reflexivity|];
  split; [reflexivity|];
  split; [intros ? Ht; vm_compute in Ht; injection Ht as <-; reflexivity|];
  repeat constructor.

(* ================================================================== *)
(** ** The Index Calculator *)

(** C1, as the specification states it, fails in two ways.  On integers
    beyond the float range: the first data has totalSpent > 0 and a valid
    category, everything of it can be printed, the division raises
    [OverflowError], and the task body returns the failure record.  On a
    value that cannot be printed: the second data has a formula that
    evaluates to 50.0, the print of line 94 raises [UnicodeEncodeError],
    a [ValueError], for the id of the category, and the task body returns
    the failure record. *)
Lemma personal_index_overflow_fails :
  (fetched (serving huge_spend) (VInt 7) huge_spend
   /\ as_request_data huge_spend = Some huge_spend_data
   /\ printable utf8_stdout (VInt 7) huge_spend_data
   /\ Spec.totalSpent huge_spend_data = Ok (NInt (10 ^ 400))
   /\ Num.gt0 (NInt (10 ^ 400)) = true
   /\ existsb Spec.valid (categories huge_spend_data) = true
   /\ Spec.personalIndex huge_spend_data (NInt (10 ^ 400)) = Raise OverflowError
   /\ fst (calculate_personal_cpi utf8_stdout (VInt 7) (serving huge_spend) [])
      = Ok (failure (VInt 7)))
  /\ (fetched (serving surrogate_id) (VInt 7) surrogate_id
      /\ as_request_data surrogate_id = Some surrogate_id_data
      /\ Spec.totalSpent surrogate_id_data = Ok (NInt 150)
      /\ Num.gt0 (NInt 150) = true
      /\ existsb Spec.valid (categories surrogate_id_data) = true
      /\ Spec.personalIndex surrogate_id_data (NInt 150) = Ok (F64.of_Z 50)
      /\ showable utf8_stdout (VStr lone_surrogate) = false
      /\ fst (calculate_personal_cpi utf8_stdout (VInt 7) (serving surrogate_id) [])
         = Ok (failure (VInt 7))).
Proof.
  split.
  - split; [apply fetched_serving|].
    split; [reflexivity|].
    split; [show_printable|].
    repeat split; vm_compute; reflexivity.
  - split; [apply fetched_serving|].
    repeat split; vm_compute; reflexivity.
Qed.

(** C1 (amended): for RequestData with totalSpent > 0 and at least one
    category with basePrice > 0 and userSpent > 0, whenever the formula
    round(100 * sum over exactly those categories of
    (userSpent/totalSpent) * ((userSpent - basePrice)/basePrice), 2)
    evaluates without an overflow to [v], and the values printed on the
    way (the request identifier, comparisonDate, totalSpent and the ids of
    those categories) can be printed, the task body returns success=true
    with personalCPI = [v]; totalSpent sums over all categories.  The
    formula always evaluates when every number of the data is a float.
    The single-category input 150/100 and the two-category input
    A(50,50), B(50,25) both yield 50.0. *)
Theorem personal_index_correct :
  (forall (out : console) (request_id : pyval) (net : network) (w : world)
          (payload : pyval) (d : RequestData) (t : pynum) (v : F64.float),
      fetched net request_id payload ->
      as_request_data payload = Some d ->
      printable out request_id d ->
      Spec.totalSpent d = Ok t ->
      Num.gt0 t = true ->
      existsb Spec.valid (categories d) = true ->
      Spec.personalIndex d t = Ok v ->
      fst (calculate_personal_cpi out request_id net w)
      = Ok (success request_id (VFloat v)))
  /\ (forall (d : RequestData) (t : pynum),
         float_data d ->
         Spec.totalSpent d = Ok t ->
         Num.gt0 t = true ->
         exists v, Spec.personalIndex d t = Ok v)
  /\ fst (calculate_personal_cpi utf8_stdout (VInt 7) (serving single_category) [])
     = Ok (success (VInt 7) (VFloat (F64.of_Z 50)))
  /\ fst (calculate_personal_cpi utf8_stdout (VInt 7) (serving two_categories) [])
     = Ok (success (VInt 7) (VFloat (F64.of_Z 50))).
Proof.
  split; [|split; [|split; vm_compute; reflexivity]].
  2:{ intros d t Hd Ht Hpos.
      destruct (float_data_evaluates d Hd) as (t' & Ht' & H).
      rewrite Ht in Ht'. injection Ht' as <-.
      apply H, gt0_not_eq0, Hpos. }
  intros out request_id net w payload [cs cd] t v Hf Hd Hp Ht Hpos Hvalid Hv.
  rewrite (calculate_personal_cpi_spec _ _ _ _ _ w Hf Hd Hp).
  unfold Spec.outcome. cbn [categories] in *.
  destruct cs as [|c cs]; [discriminate|].
  rewrite Ht. cbn [rbind]. rewrite (gt0_not_eq0 _ Hpos), Hv. cbn [rbind].
  now rewrite Hvalid.
Qed.

Lemma personal_index_correct_witness :
  fst (calculate_personal_cpi utf8_stdout (VInt 7) (serving two_categories) [])
  = Ok (success (VInt 7) (VFloat (F64.of_Z 50))).
Proof.
  apply (proj1 personal_index_correct utf8_stdout (VInt 7)
           (serving two_categories) [] two_categories
           {| categories :=
                [{| cat_id := VStr "A"; userSpent := NInt 50; basePrice := NInt 50 |};
                 {| cat_id := VStr "B"; userSpent := NInt 50; basePrice := NInt 25 |}];
              comparisonDate := VStr "2024-01-01" |}
           (NInt 100)).
  - apply fetched_serving.
  - reflexivity.
  - show_printable.
  - reflexivity.
  - reflexivity.
  - reflexivity.
  - vm_compute. reflexivity.
Defined.

(** C2: when the category sequence is empty, or totalSpent (missing and
    null userSpent counted as 0) equals 0, the outcome has success=false
    and no personalCPI.  The data is fetched by a task that got past
    line 38, that is, whose identifier can be printed. *)
Theorem no_spending_fails (out : console) (request_id : pyval) (net : network)
        (w : world) (payload : pyval) (d : RequestData) :
  showable out request_id = true ->
  fetched net request_id payload ->
  as_request_data payload = Some d ->
  categories d = []
  \/ (exists t, Spec.totalSpent d = Ok t /\ Num.eq0 t = true) ->
  fst (calculate_personal_cpi out request_id net w) = Ok (failure request_id).
Proof.
  intros Hid Hf Hd H.
  rewrite (calculate_personal_cpi_printed _ _ _ _ _ w Hid Hf Hd).
  destruct (Printed.outcome out request_id d) as [v|e] eqn:E; [|reflexivity].
  apply printed_outcome_ok in E. revert E.
  destruct d as [cs cd]. unfold Spec.outcome. cbn [categories] in *.
  destruct H as [->|(t & Ht & Hz)]; [congruence|].
  destruct cs as [|c cs]; [congruence|].
  rewrite Ht. cbn [rbind]. rewrite Hz. congruence.
Qed.

Lemma no_spending_fails_witness :
  fst (calculate_personal_cpi utf8_stdout (VInt 7) (serving nothing_spent) [])
  = Ok (failure (VInt 7)).
Proof.
  apply (no_spending_fails utf8_stdout (VInt 7) (serving nothing_spent) []
           nothing_spent
           {| categories :=
                [{| cat_id := VInt 1; userSpent := NInt 0; basePrice := NInt 100 |};
                 {| cat_id := VInt 2; userSpent := NInt 0; basePrice := NInt 30 |}];
              comparisonDate := VStr "2024-01-01" |}).
  - reflexivity.
  - apply fetched_serving.
  - reflexivity.
  - right. exists (NInt 0). split; reflexivity.
Defined.

(** C3: when every category has basePrice <= 0 or userSpent <= 0 (missing
    and null fields counted as 0), the outcome has success=false and no
    personalCPI, also when totalSpent > 0.  The data is fetched by a task
    that got past line 38, that is, whose identifier can be printed. *)
Theorem no_valid_category_fails (out : console) (request_id : pyval)
        (net : network) (w : world) (payload : pyval) (d : RequestData) :
  showable out request_id = true ->
  fetched net request_id payload ->
  as_request_data payload = Some d ->
  Forall (fun c => Num.le0 (basePrice c) = true \/ Num.le0 (userSpent c) = true)
         (categories d) ->
  fst (calculate_personal_cpi out request_id net w) = Ok (failure request_id).
Proof.
  intros Hid Hf Hd H.
  rewrite (calculate_personal_cpi_printed _ _ _ _ _ w Hid Hf Hd).
  destruct (Printed.outcome out request_id d) as [v|e] eqn:Ep; [|reflexivity].
  apply printed_outcome_ok in Ep. revert Ep.
  assert (E : existsb Spec.valid (categories d) = false).
  { induction H as [|c cs Hc _ IH]; [reflexivity|].
    cbn [existsb]. rewrite IH, orb_false_r. unfold Spec.valid.
    destruct Hc as [Hc|Hc]; rewrite (le0_not_gt0 _ Hc);
      [reflexivity|apply andb_false_r]. }
  unfold Spec.outcome. rewrite E.
  destruct (categories d); [congruence|].
  destruct (Spec.totalSpent d) as [t|e]; cbn [rbind]; [|discriminate].
  destruct (Num.eq0 t); [congruence|].
  destruct (Spec.personalIndex d t); cbn [rbind]; congruence.
Qed.

Lemma no_valid_category_fails_witness :
  Spec.totalSpent
    {| categories :=
         [{| cat_id := VInt 1; userSpent := NInt 5; basePrice := NInt 0 |};
          {| cat_id := VInt 2; userSpent := NInt 0; basePrice := NInt 100 |}];
       comparisonDate := VStr "2024-01-01" |} = Ok (NInt 5)
  /\ fst (calculate_personal_cpi utf8_stdout (VInt 7) (serving no_base_price) [])
     = Ok (failure (VInt 7)).
Proof.
  split; [reflexivity|].
  apply (no_valid_category_fails utf8_stdout (VInt 7) (serving no_base_price) []
           no_base_price
           {| categories :=
                [{| cat_id := VInt 1; userSpent := NInt 5; basePrice := NInt 0 |};
                 {| cat_id := VInt 2; userSpent := NInt 0; basePrice := NInt 100 |}];
              comparisonDate := VStr "2024-01-01" |}).
  - reflexivity.
  - apply fetched_serving.
  - reflexivity.
  - constructor; [left; reflexivity|].
    constructor; [right; reflexivity|constructor].
Defined.

(* ================================================================== *)
(** ** The outcome record *)

(** C4: every outcome the task body returns has a boolean [success] that
    is true exactly when [personalCPI] is present (not null), and a false
    [success] comes with a null [personalCPI]; this covers every return
    path, whatever the collaborator answers and whatever standard output
    accepts. *)
Theorem outcome_invariant (out : console) (request_id : pyval) (net : network)
        (w : world) (v : pyval) :
  fst (calculate_personal_cpi out request_id net w) = Ok v ->
  (exists ok, Py.getitem v "success" = Ok (VBool ok))
  /\ (Py.getitem v "success" = Ok (VBool true)
      <-> exists x, Py.getitem v "personalCPI" = Ok x /\ x <> VNone)
  /\ (Py.getitem v "success" = Ok (VBool false)
      -> Py.getitem v "personalCPI" = Ok VNone).
Proof.
  intros H. apply calculate_personal_cpi_returns in H.
  destruct H as [->|[f ->]]; cbn.
  - split; [now exists false|]. split; [|reflexivity].
    split; [discriminate|]. intros (x & Hx & Hn). congruence.
  - split; [now exists true|]. split; [|discriminate].
    split; [|reflexivity]. intros _. exists (VFloat f). split; [reflexivity|discriminate].
Qed.

Lemma outcome_invariant_witness :
  (exists ok, Py.getitem (failure (VInt 7)) "success" = Ok (VBool ok))
  /\ (Py.getitem (failure (VInt 7)) "success" = Ok (VBool true)
      <-> exists x, Py.getitem (failure (VInt 7)) "personalCPI" = Ok x /\ x <> VNone)
  /\ (Py.getitem (failure (VInt 7)) "success" = Ok (VBool false)
      -> Py.getitem (failure (VInt 7)) "personalCPI" = Ok VNone).
Proof.
  apply (outcome_invariant utf8_stdout (VInt 7) (failing 500) []). reflexivity.
Defined.




(* ================================================================== *)
(** ** Reporting *)

(** C5: when the data fetch of a task fails (a status other than 200, or
    an exception such as a timeout), exactly one report call is made, for
    that request identifier, with body {personalCPI: null, success: false}.
    A task gets to fetch when line 38 can print its identifier. *)
Theorem fetch_failure_reported_once (out : console) (request_id : pyval)
        (net : network) (w : world) :
  showable out request_id = true ->
  fetch_fails net request_id ->
  reports (snd (run_task out net request_id w))
  = reports w ++ [(result_url request_id, payload_of VNone (VBool false))].
Proof.
  intros Hid H. apply run_task_reports_failure.
  rewrite run_calculate_personal_cpi, Hid. unfold caught, fetch_outcome.
  unfold fetch_fails in H.
  destruct (on_get net (data_url request_id)) as [r|e].
  - apply Z.eqb_neq in H. rewrite H.
    now destruct (showable out (VStr (text r))).
  - now rewrite H.
Qed.

Lemma fetch_failure_reported_once_witness :
  reports (snd (run_task utf8_stdout (failing 500) (VInt 7) []))
  = [(result_url (VInt 7), payload_of VNone (VBool false))].
Proof.
  apply (fetch_failure_reported_once utf8_stdout (VInt 7) (failing 500) []).
  - reflexivity.
  - vm_compute. discriminate.
Defined.

(** C6, as the specification states it, fails: a spend that is a string
    makes the calculation raise [TypeError], and the failure is reported
    all the same. *)
Lemma calculation_error_is_reported :
  fetched (serving text_spend) (VInt 7) text_spend
  /\ run (index_calculator utf8_stdout (VInt 7) text_spend) = Raise TypeError
  /\ reports (snd (run_task utf8_stdout (serving text_spend) (VInt 7) []))
     = [(result_url (VInt 7), payload_of VNone (VBool false))]
  /\ reports (snd (run_task utf8_stdout (serving text_spend) (VInt 7) [])) <> [].
Proof.
  split; [apply fetched_serving|].
  repeat split; try (vm_compute; reflexivity).
  vm_compute. discriminate.
Qed.

(** C6 (amended): an error raised by the Index Calculator during a task
    is caught inside the task body, which returns the failure record, and
    exactly one report call with {personalCPI: null, success: false} is
    made.  A task makes its one report exactly when its body returns, and
    none when its body raises; the body raises only when the request
    identifier cannot be printed or the collaborator raises something that
    is not an [Exception]. *)
Theorem calculation_error_reported_once :
  (forall (out : console) (request_id : pyval) (net : network) (w : world)
          (payload : pyval) (e : pyexc),
      showable out request_id = true ->
      fetched net request_id payload ->
      run (index_calculator out request_id payload) = Raise e ->
      fst (calculate_personal_cpi out request_id net w) = Ok (failure request_id)
      /\ reports (snd (run_task out net request_id w))
         = reports w ++ [(result_url request_id, payload_of VNone (VBool false))])
  /\ (forall (out : console) (request_id : pyval) (net : network) (w : world),
         match fst (calculate_personal_cpi out request_id net w) with
         | Ok v =>
             exists personal_cpi ok,
               v = VDict [("id", request_id); ("personalCPI", personal_cpi);
                          ("success", ok)]
               /\ reports (snd (run_task out net request_id w))
                  = reports w
                    ++ [(result_url request_id, payload_of personal_cpi ok)]
         | Raise e =>
             reports (snd (run_task out net request_id w)) = reports w
             /\ (showable out request_id = false \/ is_Exception e = false)
         end).
Proof.
  split.
  - intros out request_id net w payload e Hid (r & Hget & Hst & Hjson) He.
    assert (G : forall w', fst (calculate_personal_cpi out request_id net w')
                           = Ok (failure request_id)).
    { intros w'. rewrite run_calculate_personal_cpi, Hid.
      unfold caught, fetch_outcome.
      rewrite Hget, Hst, Hjson, He. cbn [Z.eqb Pos.eqb].
      now rewrite (index_calculator_raises _ _ _ _ He). }
    split; [apply G|]. apply run_task_reports_failure, G.
  - intros out request_id net w.
    destruct (fst (calculate_personal_cpi out request_id net w)) as [v|e] eqn:E.
    + now apply run_task_reports.
    + split; [now apply (run_task_silent _ _ _ _ e)|].
      now apply (calculate_personal_cpi_raises _ net _ w).
Qed.

Lemma calculation_error_reported_once_witness :
  fst (calculate_personal_cpi utf8_stdout (VInt 7) (serving text_spend) [])
  = Ok (failure (VInt 7))
  /\ reports (snd (run_task utf8_stdout (serving text_spend) (VInt 7) []))
     = [(result_url (VInt 7), payload_of VNone (VBool false))].
Proof.
  apply (proj1 calculation_error_reported_once utf8_stdout (VInt 7)
           (serving text_spend) [] text_spend TypeError).
  - reflexivity.
  - apply fetched_serving.
  - reflexivity.
Defined.

(* ================================================================== *)
(** ** Determinism and noninterference *)

(** C7: the outcome of the Index Calculator depends on its input alone:
    from any two worlds the same data gives the same outcome, a second
    call after the first gives it again, and the only effect of a call is
    to print. *)
Theorem index_calculator_deterministic (out : console)
        (request_id request_data : pyval) :
  (forall w1 w2,
      fst (index_calculator out request_id request_data w1)
      = fst (index_calculator out request_id request_data w2))
  /\ (forall w,
         fst (index_calculator out request_id request_data
                (snd (index_calculator out request_id request_data w)))
         = fst (index_calculator out request_id request_data w))
  /\ (exists evs, Forall is_print evs
                  /\ forall w, snd (index_calculator out request_id request_data w)
                               = w ++ evs).
Proof.
  pose proof (writes_index_calculator out request_id request_data) as W.
  split; [|split].
  - intros w1 w2. now rewrite !(writes_run _ W).
  - intros w. now rewrite !(writes_run _ W).
  - exact (writes_world _ W).
Qed.






(* ================================================================== *)
(** ** The trigger endpoint: who gets a task started *)

Lemma contains_lookup (key : string) (d : list (string * pyval)) :
  contains key (map fst d) = match Py.lookup key d with Some _ => true | None => false end.
Proof.
  induction d as [|[k v] d IH]; [reflexivity|].
  cbn [map fst contains existsb Py.lookup]. fold (contains key (map fst d)).
  destruct (String.eqb key k); [reflexivity|exact IH].
Qed.

Lemma differs_false (v : pyval) (s : string) :
  differs v s = false <-> v = VStr s.
Proof.
  split.
  - destruct v; cbn [differs]; try discriminate.
    intros H. apply negb_false_iff, String.eqb_eq in H. now subst.
  - intros ->. cbn [differs]. now rewrite String.eqb_refl.
Qed.

Lemma lookup_some_truthy (key : string) (d : list (string * pyval)) (v : pyval) :
  Py.lookup key d = Some v -> Py.truthy (VDict d) = true.
Proof. destruct d; [discriminate|reflexivity]. Qed.

Ltac view_unfold :=
  unfold process_request, handle_post, vtry, vbind, say, vlift, vret, submit;
  cbn [view_shown forallb].

(** X1: A [POST] whose body is an object with [pk] and the token "lab8token",
    and whose body, content type and [pk] can be printed, is answered 200
    with the CORS headers, and hands exactly the value of [pk] to the
    executor, behind the items already submitted.  When the body and the
    content type can be printed and [pk] cannot, the task is handed to
    the executor all the same, and the answer is 500: line 233 prints
    [pk] after the submission. *)
Theorem trigger_accepted :
  (forall (out : console) (req : request) (s : server)
          (d : list (string * pyval)) (pk : pyval),
      method req = POST ->
      data req = VDict d ->
      Py.lookup "pk" d = Some pk ->
      Py.lookup "token" d = Some (VStr AUTH_TOKEN) ->
      showable out (data req) = true ->
      showable out (VStr (content_type req)) = true ->
      showable out pk = true ->
      exists s',
        process_request out req s
        = (Ok {| status := 200; body := ProcessingStarted pk;
                 response_headers := cors_headers |}, s')
        /\ submitted s' = submitted s ++ [pk])
  /\ (forall (out : console) (req : request) (s : server)
             (d : list (string * pyval)) (pk : pyval),
         method req = POST ->
         data req = VDict d ->
         Py.lookup "pk" d = Some pk ->
         Py.lookup "token" d = Some (VStr AUTH_TOKEN) ->
         showable out (data req) = true ->
         showable out (VStr (content_type req)) = true ->
         showable out pk = false ->
         exists s',
           process_request out req s
           = (Ok {| status := 500; body := InternalServerError ValueError;
                    response_headers := [] |}, s')
           /\ submitted s' = submitted s ++ [pk]).
Proof.
  split; intros out req s d pk Hm Hd Hpk Htok Hdata Hct Hid;
    view_unfold; rewrite Hm, Hdata, Hct; rewrite Hd;
    rewrite (lookup_some_truthy _ _ _ Hpk);
    cbn [andb negb keys rbind fst snd]; rewrite !contains_lookup, Hpk, Htok;
    cbn [negb orb Py.getitem]; rewrite Hpk, Htok;
    cbn [differs]; rewrite String.eqb_refl; cbn [negb submitted stdout];
    rewrite Hid; cbn [andb is_Exception];
    eexists; split; reflexivity.
Qed.

Lemma trigger_accepted_witness :
  (exists s',
      process_request utf8_stdout
        {| method := POST;
           data := VDict [("pk", VInt 7); ("token", VStr "lab8token")];
           content_type := "application/json" |}
        {| submitted := [VInt 3]; stdout := [] |}
      = (Ok {| status := 200; body := ProcessingStarted (VInt 7);
               response_headers := cors_headers |}, s')
      /\ submitted s' = [VInt 3] ++ [VInt 7])
  /\ (exists s',
         process_request utf8_stdout
           {| method := POST;
              data := VDict [("pk", VStr lone_surrogate);
                             ("token", VStr "lab8token")];
              content_type := "application/json" |}
           {| submitted := [VInt 3]; stdout := [] |}
         = (Ok {| status := 500; body := InternalServerError ValueError;
                  response_headers := [] |}, s')
         /\ submitted s' = [VInt 3] ++ [VStr lone_surrogate]).
Proof.
  split.
  - apply (proj1 trigger_accepted utf8_stdout
             {| method := POST;
                data := VDict [("pk", VInt 7); ("token", VStr "lab8token")];
                content_type := "application/json" |}
             {| submitted := [VInt 3]; stdout := [] |}
             [("pk", VInt 7); ("token", VStr "lab8token")] (VInt 7));
      reflexivity.
  - apply (proj2 trigger_accepted utf8_stdout
             {| method := POST;
                data := VDict [("pk", VStr lone_surrogate);
                               ("token", VStr "lab8token")];
                content_type := "application/json" |}
             {| submitted := [VInt 3]; stdout := [] |}
             [("pk", VStr lone_surrogate); ("token", VStr "lab8token")]
             (VStr lone_surrogate));
      reflexivity.
Defined.

(** X2: Nothing is handed to the executor unless the request is a [POST]
    whose body is an object with [pk] and a [token] equal to the string
    "lab8token"; then exactly one item, the value of [pk], is added, and
    the answer is 200 when [pk] can be printed and 500 when it cannot. *)
Theorem submission_requires_token (out : console) (req : request)
        (s s' : server) (r : result http_response) :
  process_request out req s = (r, s') ->
  submitted s' = submitted s
  \/ (method req = POST
      /\ exists d pk,
          data req = VDict d
          /\ Py.lookup "pk" d = Some pk
          /\ Py.lookup "token" d = Some (VStr AUTH_TOKEN)
          /\ submitted s' = submitted s ++ [pk]
          /\ r = if showable out pk
                 then Ok {| status := 200; body := ProcessingStarted pk;
                            response_headers := cors_headers |}
                 else Ok {| status := 500;
                            body := InternalServerError ValueError;
                            response_headers := [] |}).
Proof.
  view_unfold. destruct (method req) eqn:Hm.
  2:{ intros H. injection H as <- <-. now left. }
  rewrite !andb_true_r.
  destruct (showable out (data req)) eqn:Hdata; cbn [is_Exception].
  2:{ intros H. injection H as <- <-. now left. }
  destruct (showable out (VStr (content_type req))) eqn:Hct; cbn [is_Exception].
  2:{ intros H. injection H as <- <-. now left. }
  destruct (Py.truthy (data req)) eqn:Ht; cbn [negb fst snd].
  2:{ intros H. injection H as <- <-. now left. }
  destruct (data req) as [| | | | | |d] eqn:Hd;
    try (cbn [keys rbind is_Exception]; intros H; injection H as <- <-; now left).
  cbn [keys rbind]. rewrite !contains_lookup.
  destruct (Py.lookup "pk" d) as [pk|] eqn:Hpk; cbv beta iota; cbn [negb orb].
  2:{ intros H. injection H as <- <-. now left. }
  cbn [keys rbind]. rewrite ?contains_lookup.
  destruct (Py.lookup "token" d) as [tok|] eqn:Htok; cbv beta iota; cbn [negb orb].
  2:{ intros H. injection H as <- <-. now left. }
  cbn [Py.getitem]. rewrite Hpk, Htok.
  destruct (differs tok AUTH_TOKEN) eqn:Hdiff.
  { intros H. injection H as <- <-. now left. }
  apply differs_false in Hdiff. subst tok. cbn [submitted stdout].
  destruct (showable out pk) eqn:Hid; cbn [is_Exception];
    intros H; injection H as <- <-; right; (split; [reflexivity|]);
    exists d, pk; cbn [submitted]; rewrite Hid; repeat split; auto.
Qed.

Lemma submission_requires_token_witness :
  method {| method := POST;
            data := VDict [("pk", VInt 7); ("token", VStr "lab8token")];
            content_type := "application/json" |} = POST
  /\ exists d pk,
      VDict [("pk", VInt 7); ("token", VStr "lab8token")] = VDict d
      /\ Py.lookup "pk" d = Some pk
      /\ Py.lookup "token" d = Some (VStr AUTH_TOKEN)
      /\ [VInt 3; VInt 7] = [VInt 3] ++ [pk]
      /\ Ok {| status := 200; body := ProcessingStarted (VInt 7);
               response_headers := cors_headers |}
         = (if showable utf8_stdout pk
            then Ok {| status := 200; body := ProcessingStarted pk;
                       response_headers := cors_headers |}
            else Ok {| status := 500;
                       body := InternalServerError ValueError;
                       response_headers := [] |}).
Proof.
  destruct (submission_requires_token utf8_stdout
              {| method := POST;
                 data := VDict [("pk", VInt 7); ("token", VStr "lab8token")];
                 content_type := "application/json" |}
              {| submitted := [VInt 3]; stdout := [] |}
              {| submitted := [VInt 3; VInt 7];
                 stdout := [ReceivedRequest
                              (VDict [("pk", VInt 7); ("token", VStr "lab8token")]);
                            RequestMethod POST;
                            ContentType "application/json";
                            TaskStarted (VInt 7)] |}
              (Ok {| status := 200; body := ProcessingStarted (VInt 7);
                     response_headers := cors_headers |})
              eq_refl) as [H|H].
  - discriminate H.
  - exact H.
Defined.

(** X3: Requests that start nothing, the body and the content type being
    printable.  A [POST] with an empty body (null, an empty object, list
    or string, zero, false) is answered 400; an object without [pk] or
    without [token] is answered 400; a [token] other than the string
    "lab8token", of whatever type, is answered 401; a non-empty body that
    is not an object makes [.keys()] fail and is answered 500.  A [POST]
    whose body or content type cannot be printed is answered 500 by the
    prints of lines 201 and 203.  In each case the items handed to the
    executor are unchanged. *)
Theorem trigger_rejected :
  (forall (out : console) (req : request) (s : server),
      method req = POST ->
      showable out (data req) = true ->
      showable out (VStr (content_type req)) = true ->
      Py.truthy (data req) = false ->
      exists s',
        process_request out req s
        = (Ok {| status := 400; body := ErrorMessage "Request body is empty";
                 response_headers := [] |}, s')
        /\ submitted s' = submitted s)
  /\ (forall (out : console) (req : request) (s : server)
             (d : list (string * pyval)),
         method req = POST ->
         showable out (data req) = true ->
         showable out (VStr (content_type req)) = true ->
         data req = VDict d ->
         d <> [] ->
         Py.lookup "pk" d = None \/ Py.lookup "token" d = None ->
         exists s',
           process_request out req s
           = (Ok {| status := 400;
                    body := ErrorMessage "Missing required fields: pk and token";
                    response_headers := [] |}, s')
           /\ submitted s' = submitted s)
  /\ (forall (out : console) (req : request) (s : server)
             (d : list (string * pyval)) (pk token : pyval),
         method req = POST ->
         showable out (data req) = true ->
         showable out (VStr (content_type req)) = true ->
         data req = VDict d ->
         Py.lookup "pk" d = Some pk ->
         Py.lookup "token" d = Some token ->
         token <> VStr AUTH_TOKEN ->
         exists s',
           process_request out req s
           = (Ok {| status := 401; body := ErrorMessage "Invalid token";
                    response_headers := [] |}, s')
           /\ submitted s' = submitted s)
  /\ (forall (out : console) (req : request) (s : server),
         method req = POST ->
         showable out (data req) = true ->
         showable out (VStr (content_type req)) = true ->
         Py.truthy (data req) = true ->
         (forall d, data req <> VDict d) ->
         exists s',
           process_request out req s
           = (Ok {| status := 500; body := InternalServerError AttributeError;
                    response_headers := [] |}, s')
           /\ submitted s' = submitted s)
  /\ (forall (out : console) (req : request) (s : server),
         method req = POST ->
         (showable out (data req) && showable out (VStr (content_type req)))%bool
         = false ->
         exists s',
           process_request out req s
           = (Ok {| status := 500; body := InternalServerError ValueError;
                    response_headers := [] |}, s')
           /\ submitted s' = submitted s).
Proof.
  repeat split.
  - intros out req s Hm Hdata Hct Ht. view_unfold.
    rewrite Hm, Hdata, Hct, Ht. cbn [andb negb].
    eexists. split; reflexivity.
  - intros out req s d Hm Hdata Hct Hd Hne H. view_unfold.
    rewrite Hm, Hdata, Hct. rewrite Hd.
    destruct d as [|kv d']; [congruence|]. cbn [andb Py.truthy negb keys rbind].
    rewrite !contains_lookup.
    destruct (Py.lookup "pk" (kv :: d')) as [pk|] eqn:Hpk; cbv beta iota.
    + cbn [keys rbind]. rewrite ?contains_lookup.
      destruct H as [H|H]; [discriminate|]. rewrite H. cbn [negb orb].
      eexists. split; reflexivity.
    + cbn [negb orb]. eexists. split; reflexivity.
  - intros out req s d pk token Hm Hdata Hct Hd Hpk Htok Hne. view_unfold.
    rewrite Hm, Hdata, Hct. rewrite Hd.
    rewrite (lookup_some_truthy _ _ _ Hpk).
    cbn [andb negb keys rbind]. rewrite !contains_lookup, Hpk. cbv beta iota.
    cbn [keys rbind]. rewrite ?contains_lookup, Htok.
    cbn [negb orb Py.getitem]. rewrite Hpk, Htok.
    destruct (differs token AUTH_TOKEN) eqn:Hdiff.
    + eexists. split; reflexivity.
    + apply differs_false in Hdiff. contradiction.
  - intros out req s Hm Hdata Hct Ht Hobj. view_unfold.
    rewrite Hm, Hdata, Hct, Ht. cbn [andb negb].
    destruct (data req) as [| | | | | |d]; try (now destruct (Hobj d));
      cbn [keys rbind is_Exception]; eexists; split; reflexivity.
  - intros out req s Hm H. view_unfold. rewrite Hm, !andb_true_r.
    destruct (showable out (data req)); cbn [andb is_Exception] in *.
    + rewrite H. cbn [is_Exception]. eexists. split; reflexivity.
    + eexists. split; reflexivity.
Qed.

Lemma trigger_rejected_witness :
  (exists s',
      process_request utf8_stdout
        {| method := POST;
           data := VDict [("pk", VInt 7); ("token", VInt 0)];
           content_type := "application/json" |}
        {| submitted := [VInt 3]; stdout := [] |}
      = (Ok {| status := 401; body := ErrorMessage "Invalid token";
               response_headers := [] |}, s')
      /\ submitted s' = submitted {| submitted := [VInt 3]; stdout := [] |})
  /\ (exists s',
         process_request utf8_stdout
           {| method := POST;
              data := VDict [("pk", VInt 7); ("token", VStr "lab8token")];
              content_type := lone_surrogate |}
           {| submitted := [VInt 3]; stdout := [] |}
         = (Ok {| status := 500; body := InternalServerError ValueError;
                  response_headers := [] |}, s')
         /\ submitted s' = submitted {| submitted := [VInt 3]; stdout := [] |}).
Proof.
  split.
  - apply (proj1 (proj2 (proj2 trigger_rejected)) utf8_stdout
             {| method := POST;
                data := VDict [("pk", VInt 7); ("token", VInt 0)];
                content_type := "application/json" |}
             {| submitted := [VInt 3]; stdout := [] |}
             [("pk", VInt 7); ("token", VInt 0)] (VInt 7) (VInt 0));
      try reflexivity.
    discriminate.
  - apply (proj2 (proj2 (proj2 (proj2 trigger_rejected))) utf8_stdout
             {| method := POST;
                data := VDict [("pk", VInt 7); ("token", VStr "lab8token")];
                content_type := lone_surrogate |}
             {| submitted := [VInt 3]; stdout := [] |});
      reflexivity.
Defined.

(* ================================================================== *)
(** ** The callback: what is reported, and what is swallowed *)

Ltac callback_unfold :=
  unfold result_callback, task_outcome, send_result, try_except, bind, lift,
    print, emit, ret, http_put;
  cbn [shown forallb].

(** X4: The callback makes one report call for a task that returned an object
    with an [id] when lines 145 and 146 can print the [id], the
    [personalCPI] and the [success] of the object: the call goes to the
    address of that [id]; the body carries the [personalCPI] and
    [success] of the object, with null and false in place of a missing
    key; the answer to the call, or its failure, leads to no second
    call.  For any other task (cancelled, failed, a result without [id],
    or one of which a printed value cannot be printed) no report call is
    made. *)
Theorem callback_reports :
  (forall (out : console) (net : network) (d : list (string * pyval))
          (id : pyval) (w : world),
      Py.lookup "id" d = Some id ->
      showable out id = true ->
      showable out (lookup_or d "personalCPI" VNone) = true ->
      showable out (lookup_or d "success" VNone) = true ->
      reports (snd (result_callback out net (Finished (VDict d)) w))
      = reports w
        ++ [(result_url id,
             payload_of (lookup_or d "personalCPI" VNone)
                        (lookup_or d "success" (VBool false)))])
  /\ (forall (out : console) (net : network) (task : future) (w : world),
         (forall d id,
             task = Finished (VDict d) ->
             Py.lookup "id" d = Some id ->
             (showable out id
              && (showable out (lookup_or d "personalCPI" VNone)
                  && showable out (lookup_or d "success" VNone)))%bool = false) ->
         reports (snd (result_callback out net task w)) = reports w).
Proof.
  split.
  - intros out net d id w Hid Hsid Hscpi Hsok. callback_unfold.
    cbn [future_result Py.getitem]. rewrite Hid. cbv beta iota.
    rewrite !get_dict. cbv beta iota. rewrite Hsid, Hscpi, Hsok.
    cbn [andb fst snd Py.getitem]. rewrite Hid. cbv beta iota.
    rewrite ?Hsid. cbn [andb]. rewrite ?get_dict. cbv beta iota.
    unfold payload_of.
    destruct (on_put net _ _) as [r|e].
    + destruct (status_code r =? 200); cbn [snd];
        [|destruct (showable out (VStr (text r))); cbn [andb lift is_Exception fst snd]];
        rewrite !reports_app; cbn; now rewrite !app_nil_r.
    + destruct e; cbn [is_Exception snd];
        rewrite !reports_app; cbn; now rewrite !app_nil_r.
  - intros out net task w H. destruct task as [v|e|].
    + callback_unfold. cbn [future_result].
      destruct v as [| | | | | |d];
        try (cbn; rewrite ?reports_app; cbn; now rewrite ?app_nil_r).
      cbn [Py.getitem]. destruct (Py.lookup "id" d) as [id|] eqn:Hid.
      * specialize (H d id eq_refl Hid). cbv beta iota.
        rewrite !get_dict. cbv beta iota. rewrite !andb_true_r.
        destruct (showable out id); cbn [andb fst snd] in *.
        -- rewrite H. unfold lift. cbn [is_CancelledError is_Exception fst snd].
           rewrite !reports_app; cbn; now rewrite !app_nil_r.
        -- unfold lift. cbn [is_CancelledError is_Exception fst snd].
           rewrite !reports_app; cbn; now rewrite !app_nil_r.
      * cbn; rewrite ?reports_app; cbn; now rewrite ?app_nil_r.
    + apply result_callback_silent. discriminate.
    + reflexivity.
Qed.

Lemma callback_reports_witness :
  reports (snd (result_callback utf8_stdout unreachable
                  (Finished (VDict [("id", VInt 7)])) []))
  = reports [] ++ [(result_url (VInt 7), payload_of VNone (VBool false))]
  /\ reports (snd (result_callback utf8_stdout unreachable
                     (Finished (failure (VStr lone_surrogate))) []))
     = reports [].
Proof.
  split.
  - apply (proj1 callback_reports utf8_stdout unreachable [("id", VInt 7)]
             (VInt 7) []); reflexivity.
  - apply (proj2 callback_reports utf8_stdout unreachable
             (Finished (failure (VStr lone_surrogate))) []).
    intros d id Hd Hid. injection Hd as <-.
    vm_compute in Hid. injection Hid as <-. reflexivity.
Defined.

(** X5: The callback raises nothing as long as the exception of a failed
    task and those of the report call derive from [Exception]: a failed
    delivery is printed and dropped. *)
Theorem callback_swallows_errors (out : console) (net : network)
        (task : future) (w : world) :
  (forall e, task = Failed e -> is_Exception e = true) ->
  (forall u b, rpost (on_put net u b) any) ->
  fst (result_callback out net task w) = Ok tt.
Proof.
  intros Htask Hput. destruct task as [v|e|]; [| |reflexivity].
  2:{ specialize (Htask e eq_refl). callback_unfold. cbn [future_result].
      destruct (is_CancelledError e); [reflexivity|]. now rewrite Htask. }
  callback_unfold. cbn [future_result].
  destruct v as [| | | | | |d]; try reflexivity.
  cbn [Py.getitem]. destruct (Py.lookup "id" d) as [id|] eqn:Hid; [|reflexivity].
  cbv beta iota. rewrite !get_dict. cbv beta iota. rewrite !andb_true_r.
  destruct (showable out id) eqn:Hsid; [|reflexivity].
  destruct (showable out (lookup_or d "personalCPI" VNone)
            && showable out (lookup_or d "success" VNone))%bool; [|reflexivity].
  cbn [fst snd Py.getitem]. rewrite Hid. cbv beta iota.
  rewrite ?get_dict. cbv beta iota.
  specialize (Hput (result_url id)
                (VDict [("personalCPI", lookup_or d "personalCPI" VNone);
                        ("success", lookup_or d "success" (VBool false))])).
  destruct (on_put net _ _) as [r|e]; cbn [rpost] in Hput.
  - rewrite Hsid.
    destruct (status_code r =? 200); [reflexivity|].
    destruct (showable out (VStr (text r))); reflexivity.
  - now rewrite Hput.
Qed.

Lemma callback_swallows_errors_witness :
  fst (result_callback utf8_stdout unreachable (Finished (failure (VInt 7))) [])
  = Ok tt.
Proof.
  apply (callback_swallows_errors utf8_stdout unreachable
           (Finished (failure (VInt 7))) []).
  - discriminate.
  - intros u b. reflexivity.
Defined.

(* ================================================================== *)
(** ** The HTTP calls of a task *)

Lemma http_calls_app (w w' : world) :
  http_calls (w ++ w') = http_calls w ++ http_calls w'.
Proof. apply filter_app. Qed.

Lemma http_calls_quiet (evs : list event) :
  Forall no_http evs -> http_calls evs = [].
Proof.
  induction 1 as [|ev evs Hev _ IH]; [reflexivity|].
  cbn [http_calls filter]. fold (http_calls evs). rewrite IH.
  destruct ev; simpl in *; tauto.
Qed.

Lemma is_print_no_http (ev : event) : is_print ev -> no_http ev.
Proof. destruct ev; simpl; tauto. Qed.

(** What follows the answer to the fetch makes no further call. *)
Lemma writes_after_response (out : console) (request_id : pyval) (r : response) :
  writes no_http
    (bind (print out (LogStatus (status_code r)))
       (fun _ =>
          if status_code r =? 200 then
            bind (lift (json r)) (fun request_data =>
            index_calculator out request_id request_data)
          else
            bind (print out (LogFetchFailed request_id (status_code r))) (fun _ =>
            bind (print out (LogResponseText (text r))) (fun _ =>
            ret (failure request_id))))).
Proof.
  apply writes_bind; [apply writes_print, is_print_no_http|intros _].
  destruct (status_code r =? 200).
  - apply writes_bind; [apply writes_lift|intros request_data].
    eapply writes_weaken; [apply is_print_no_http|].
    apply writes_index_calculator.
  - apply writes_bind; [apply writes_print, is_print_no_http|intros _].
    apply writes_bind; [apply writes_print, is_print_no_http|intros _].
    apply writes_ret.
Qed.

(** The events of the task body for an identifier that can be printed:
    the sleep, the print, the fetch, and then no further call. *)
Lemma calculate_personal_cpi_world (out : console) (request_id : pyval)
      (net : network) (w : world) :
  showable out request_id = true ->
  exists evs,
    Forall no_http evs
    /\ snd (calculate_personal_cpi out request_id net w)
       = w ++ Sleep 30
           :: Print (LogFetching request_id (data_url request_id))
           :: HttpGet (data_url request_id) 10
                [("Content-Type", "application/json"); ("X-Auth-Token", "lab8token")]
           :: evs.
Proof.
  intros Hid.
  assert (Hp : forall l, shown l = [request_id] ->
                         forallb (showable out) (shown l) = true).
  { intros l ->. cbn [forallb]. now rewrite Hid. }
  unfold calculate_personal_cpi. rewrite bind_emit.
  unfold try_except, fetch_and_calculate.
  rewrite bind_print_ok by now apply Hp.
  unfold bind at 1, http_get.
  destruct (on_get net (data_url request_id)) as [r|e].
  - destruct (writes_after_response out request_id r) as (r' & evs & Hevs & HW).
    rewrite HW. destruct r' as [v|e].
    + exists evs. split; [exact Hevs|].
      cbn [snd]. now rewrite <- !app_assoc.
    + destruct (is_RequestException e); [|destruct (is_Exception e)].
      * exists (evs ++ [Print (LogRequestError request_id e); Traceback e]).
        split; [apply Forall_app; split; [exact Hevs|repeat constructor]|].
        unfold after_error. rewrite bind_print_ok by now apply Hp.
        rewrite bind_emit. cbn [ret snd].
        now rewrite <- !app_assoc.
      * exists (evs ++ [Print (LogFetchError request_id e); Traceback e]).
        split; [apply Forall_app; split; [exact Hevs|repeat constructor]|].
        unfold after_error. rewrite bind_print_ok by now apply Hp.
        rewrite bind_emit. cbn [ret snd].
        now rewrite <- !app_assoc.
      * exists evs. split; [exact Hevs|].
        cbn [snd]. now rewrite <- !app_assoc.
  - destruct (is_RequestException e); [|destruct (is_Exception e)].
    + exists [Print (LogRequestError request_id e); Traceback e].
      split; [repeat constructor|].
      unfold after_error. rewrite bind_print_ok by now apply Hp.
      rewrite bind_emit. cbn [ret snd].
      now rewrite <- !app_assoc.
    + exists [Print (LogFetchError request_id e); Traceback e].
      split; [repeat constructor|].
      unfold after_error. rewrite bind_print_ok by now apply Hp.
      rewrite bind_emit. cbn [ret snd].
      now rewrite <- !app_assoc.
    + exists []. split; [constructor|].
      cbn [snd]. now rewrite <- !app_assoc.
Qed.

(** X6: Whatever the collaborator answers, the task body first sleeps 30
    seconds.  For an identifier that line 38 can print it then makes
    exactly one call: a GET of the data of its request identifier, with a
    timeout of 10 and the token header; it never fetches a second time
    and never reports.  For an identifier that cannot be printed it makes
    no call at all and raises [ValueError]. *)
Theorem task_body_fetches_once (out : console) (request_id : pyval)
        (net : network) (w : world) :
  (showable out request_id = true ->
   http_calls (snd (calculate_personal_cpi out request_id net w))
   = http_calls w
     ++ [HttpGet (data_url request_id) 10
           [("Content-Type", "application/json"); ("X-Auth-Token", "lab8token")]]
   /\ reports (snd (calculate_personal_cpi out request_id net w)) = reports w
   /\ exists evs,
       snd (calculate_personal_cpi out request_id net w) = w ++ Sleep 30 :: evs)
  /\ (showable out request_id = false ->
      calculate_personal_cpi out request_id net w
      = (Raise ValueError, w ++ [Sleep 30])).
Proof.
  split; [|apply calculate_personal_cpi_unprintable].
  intros Hid.
  destruct (calculate_personal_cpi_world out request_id net w Hid)
    as (evs & Hevs & ->).
  split; [|split].
  - rewrite http_calls_app. cbn [http_calls filter]. fold (http_calls evs).
    now rewrite (http_calls_quiet _ Hevs).
  - rewrite reports_app, (reports_no_report (Sleep 30 :: _)); [apply app_nil_r|].
    repeat (constructor; [exact I|]).
    eapply Forall_impl; [|exact Hevs]. intros ev. destruct ev; simpl; tauto.
  - eexists. reflexivity.
Qed.

Lemma task_body_fetches_once_witness :
  (http_calls (snd (calculate_personal_cpi utf8_stdout (VInt 7) unreachable []))
   = http_calls []
     ++ [HttpGet (data_url (VInt 7)) 10
           [("Content-Type", "application/json"); ("X-Auth-Token", "lab8token")]]
   /\ reports (snd (calculate_personal_cpi utf8_stdout (VInt 7) unreachable []))
      = reports []
   /\ exists evs,
       snd (calculate_personal_cpi utf8_stdout (VInt 7) unreachable [])
       = [] ++ Sleep 30 :: evs)
  /\ calculate_personal_cpi utf8_stdout (VStr lone_surrogate) unreachable []
     = (Raise ValueError, [] ++ [Sleep 30]).
Proof.
  split.
  - apply (proj1 (task_body_fetches_once utf8_stdout (VInt 7) unreachable [])).
    reflexivity.
  - apply (proj2 (task_body_fetches_once utf8_stdout (VStr lone_surrogate)
                    unreachable [])).
    reflexivity.
Defined.

(** The task body returns a record whenever it can print its identifier
    and fetching and decoding raise nothing but exceptions that derive
    from [Exception]. *)
Lemma calculate_personal_cpi_ok (out : console) (request_id : pyval)
      (net : network) (w : world) :
  showable out request_id = true ->
  raises_exceptions_only net request_id ->
  exists personal_cpi ok,
    fst (calculate_personal_cpi out request_id net w)
    = Ok (VDict [("id", request_id); ("personalCPI", personal_cpi); ("success", ok)])
    /\ showable out personal_cpi = true
    /\ showable out ok = true.
Proof.
  intros Hid H.
  assert (G : exists v, fst (calculate_personal_cpi out request_id net w) = Ok v).
  { rewrite run_calculate_personal_cpi, Hid. unfold caught, fetch_outcome.
    unfold raises_exceptions_only in H.
    destruct (on_get net (data_url request_id)) as [r|e]; cbn [rpost] in H.
    2:{ rewrite H. eauto. }
    destruct (Z.eqb_spec (status_code r) 200) as [E|_].
    2:{ destruct (showable out (VStr (text r))); cbn [is_Exception]; eauto. }
    specialize (H E).
    destruct (json r) as [payload|e]; cbn [rpost] in H.
    2:{ rewrite H. eauto. }
    destruct (run (index_calculator out request_id payload)) as [v|e] eqn:Er;
      [eauto|].
    apply index_calculator_raises in Er. rewrite Er. eauto. }
  destruct G as (v & Hv). rewrite Hv.
  apply calculate_personal_cpi_returns in Hv.
  destruct Hv as [->|[f ->]]; unfold failure, success; eauto.
Qed.

Lemma result_callback_record (out : console) (net : network)
      (request_id personal_cpi ok : pyval) (w : world) :
  showable out request_id = true ->
  showable out personal_cpi = true ->
  showable out ok = true ->
  exists evs,
    Forall no_http evs
    /\ snd (result_callback out net
              (Finished (VDict [("id", request_id);
                                ("personalCPI", personal_cpi);
                                ("success", ok)])) w)
       = w ++ Print (LogTaskCompleted request_id)
           :: Print (LogOutcome personal_cpi ok)
           :: HttpPut (result_url request_id) (payload_of personal_cpi ok)
                auth_headers 10
           :: evs.
Proof.
  intros Hid Hcpi Hok. callback_unfold. unfold payload_of.
  cbn [future_result Py.getitem Py.get Py.lookup String.eqb Ascii.eqb
       Bool.eqb fst snd].
  rewrite Hid, Hcpi, Hok.
  cbn [andb future_result Py.getitem Py.get Py.lookup String.eqb Ascii.eqb
       Bool.eqb fst snd].
  rewrite ?Hid. cbn [andb].
  destruct (on_put net _ _) as [r|e].
  - destruct (status_code r =? 200); cbn [snd];
      [|destruct (showable out (VStr (text r))); cbn [andb lift is_Exception fst snd]];
      eexists; (split; [|rewrite <- !app_assoc; reflexivity]); repeat constructor.
  - destruct e; cbn [is_Exception snd]; eexists;
      (split; [|rewrite <- !app_assoc; reflexivity]); repeat constructor.
Qed.

Lemma result_callback_record_ok (out : console) (net : network)
      (request_id personal_cpi ok : pyval) (w : world) :
  (forall u b, rpost (on_put net u b) any) ->
  fst (result_callback out net
         (Finished (VDict [("id", request_id);
                           ("personalCPI", personal_cpi);
                           ("success", ok)])) w) = Ok tt.
Proof.
  intros Hput. callback_unfold.
  cbn [future_result Py.getitem Py.get Py.lookup String.eqb Ascii.eqb
       Bool.eqb fst snd].
  rewrite !andb_true_r.
  destruct (showable out request_id) eqn:Hid; [|reflexivity].
  destruct (showable out personal_cpi && showable out ok)%bool; [|reflexivity].
  cbn [future_result Py.getitem Py.get Py.lookup String.eqb Ascii.eqb
       Bool.eqb fst snd].
  specialize (Hput (result_url request_id)
                (VDict [("personalCPI", personal_cpi); ("success", ok)])).
  destruct (on_put net _ _) as [r|e]; cbn [rpost] in Hput.
  - rewrite Hid. destruct (status_code r =? 200); [reflexivity|].
    destruct (showable out (VStr (text r))); reflexivity.
  - now rewrite Hput.
Qed.

(** X7: A task that can print its identifier and whose fetch raises
    nothing but exceptions deriving from [Exception] makes exactly two
    calls, in this order: the GET of its data and one PUT to the result
    address of the same identifier, both with the token header and a
    timeout of 10; the PUT carries the [personalCPI] and [success] of the
    record the task body returned. *)
Theorem task_fetches_then_reports (out : console) (request_id : pyval)
        (net : network) (w : world) :
  showable out request_id = true ->
  raises_exceptions_only net request_id ->
  exists personal_cpi ok,
    fst (calculate_personal_cpi out request_id net w)
    = Ok (VDict [("id", request_id); ("personalCPI", personal_cpi); ("success", ok)])
    /\ http_calls (snd (run_task out net request_id w))
       = http_calls w
         ++ [HttpGet (data_url request_id) 10 auth_headers;
             HttpPut (result_url request_id)
               (VDict [("personalCPI", personal_cpi); ("success", ok)])
               auth_headers 10].
Proof.
  intros Hid H.
  destruct (calculate_personal_cpi_ok out request_id net w Hid H)
    as (cpi & ok & Hv & Hcpi & Hok).
  exists cpi, ok. split; [exact Hv|].
  unfold run_task.
  destruct (calculate_personal_cpi_world out request_id net w Hid)
    as (evs & Hevs & Hw).
  destruct (calculate_personal_cpi out request_id net w) as [r w1].
  cbn [fst snd] in Hv, Hw. subst r w1.
  destruct (result_callback_record out net request_id cpi ok
              (w ++ Sleep 30
                 :: Print (LogFetching request_id (data_url request_id))
                 :: HttpGet (data_url request_id) 10
                      [("Content-Type", "application/json");
                       ("X-Auth-Token", "lab8token")] :: evs) Hid Hcpi Hok)
    as (evs' & Hevs' & ->).
  rewrite !http_calls_app. cbn [http_calls filter].
  fold (http_calls evs). fold (http_calls evs').
  rewrite (http_calls_quiet _ Hevs), (http_calls_quiet _ Hevs').
  now rewrite <- app_assoc.
Qed.

Lemma task_fetches_then_reports_witness :
  exists personal_cpi ok,
    fst (calculate_personal_cpi utf8_stdout (VInt 7) (serving two_categories) [])
    = Ok (VDict [("id", VInt 7); ("personalCPI", personal_cpi); ("success", ok)])
    /\ http_calls (snd (run_task utf8_stdout (serving two_categories) (VInt 7) []))
       = http_calls []
         ++ [HttpGet (data_url (VInt 7)) 10 auth_headers;
             HttpPut (result_url (VInt 7))
               (VDict [("personalCPI", personal_cpi); ("success", ok)])
               auth_headers 10].
Proof.
  apply (task_fetches_then_reports utf8_stdout (VInt 7)
           (serving two_categories) []).
  - reflexivity.
  - vm_compute. intros _. exact I.
Defined.

(* ================================================================== *)
(** ** Tasks run one after another *)

Lemma raises_exceptions_only_of_network (net : network) (request_id : pyval) :
  network_raises_exceptions_only net -> raises_exceptions_only net request_id.
Proof.
  intros [Hget _]. unfold raises_exceptions_only.
  specialize (Hget (data_url request_id)).
  destruct (on_get net (data_url request_id)); cbn [rpost] in *; auto.
Qed.

(** A task completes; it reports once when it can print its identifier,
    and not at all when it cannot. *)
Lemma run_task_once (out : console) (net : network) (request_id : pyval)
      (w : world) :
  network_raises_exceptions_only net ->
  run_task out net request_id w
  = (Ok tt, snd (run_task out net request_id w))
  /\ map fst (reports (snd (run_task out net request_id w)))
     = map fst (reports w)
       ++ map result_url (filter (showable out) [request_id]).
Proof.
  intros Hnet. cbn [filter].
  destruct (showable out request_id) eqn:Hid.
  - destruct (calculate_personal_cpi_ok out request_id net w Hid
                (raises_exceptions_only_of_network net request_id Hnet))
      as (cpi & ok & Hv & Hcpi & Hok).
    unfold run_task.
    destruct (writes_world _ (writes_calculate_personal_cpi out request_id net))
      as (evs & Hevs & Hw).
    specialize (Hw w).
    destruct (calculate_personal_cpi out request_id net w) as [r w1].
    cbn [fst snd] in Hv, Hw. subst r w1. split.
    + pose proof (result_callback_record_ok out net request_id cpi ok (w ++ evs)
                    (proj2 Hnet)) as Hr.
      destruct (result_callback out net _ (w ++ evs)) as [r' w']. cbn [fst snd] in *.
      now subst r'.
    + rewrite (result_callback_reports out net _ _ _ _ Hid Hcpi Hok), reports_app.
      rewrite (reports_no_report _ Hevs), app_nil_r, map_app. reflexivity.
  - unfold run_task. rewrite calculate_personal_cpi_unprintable by exact Hid.
    split; [reflexivity|].
    rewrite result_callback_silent by discriminate.
    rewrite reports_app. cbn. now rewrite !app_nil_r.
Qed.

(** X8: When the collaborator's calls raise nothing but exceptions deriving
    from [Exception], tasks run one after another all complete, and each
    task whose identifier can be printed makes exactly one report call,
    to the result address of its own identifier, in the order the tasks
    ran; a task whose identifier cannot be printed makes none.  A failed
    fetch, a failed report or a failed task takes nothing from the tasks
    behind it. *)
Theorem tasks_reported_in_order (out : console) (net : network)
        (request_ids : list pyval) :
  network_raises_exceptions_only net ->
  forall w,
    fst (run_tasks out net request_ids w) = Ok tt
    /\ map fst (reports (snd (run_tasks out net request_ids w)))
       = map fst (reports w)
         ++ map result_url (filter (showable out) request_ids).
Proof.
  intros Hnet.
  induction request_ids as [|request_id rest IH]; intros w; cbn [run_tasks].
  - split; [reflexivity|]. cbn [ret snd map filter]. now rewrite app_nil_r.
  - unfold bind.
    destruct (run_task_once out net request_id w Hnet) as (Hrun & Hrep).
    rewrite Hrun.
    destruct (IH (snd (run_task out net request_id w))) as [Hok Hmap].
    split; [exact Hok|].
    rewrite Hmap, Hrep. change (request_id :: rest) with ([request_id] ++ rest).
    now rewrite filter_app, map_app, <- app_assoc.
Qed.

Lemma tasks_reported_in_order_witness :
  fst (run_tasks utf8_stdout unreachable
         [VInt 7; VStr lone_surrogate; VInt 8; VInt 7] []) = Ok tt
  /\ map fst (reports (snd (run_tasks utf8_stdout unreachable
                              [VInt 7; VStr lone_surrogate; VInt 8; VInt 7] [])))
     = map fst (reports [])
       ++ map result_url
            (filter (showable utf8_stdout)
                    [VInt 7; VStr lone_surrogate; VInt 8; VInt 7]).
Proof.
  apply (tasks_reported_in_order utf8_stdout unreachable
           [VInt 7; VStr lone_surrogate; VInt 8; VInt 7]).
  split; intros; reflexivity.
Defined.

(* ================================================================== *)
(** ** Success is only reported for well-formed data *)

(** A sum that has a value went through objects with a numeric spend. *)
Lemma sum_user_spent_items (items : list pyval) :
  forall acc t,
    sum_user_spent acc items = Ok t ->
    Forall (fun v => exists d u, v = VDict d /\ read_field d "userSpent" = Some u)
           items.
Proof.
  induction items as [|v items IH]; intros acc t H; [constructor|].
  cbn [sum_user_spent] in H.
  destruct v as [| | | | | |d]; try discriminate.
  rewrite field_or_0_dict in H. cbn [rbind] in H.
  destruct (Py.add acc (Py.or (lookup_or d "userSpent" (VInt 0)) (VInt 0)))
    as [acc'|e] eqn:Eadd; [|discriminate].
  cbn [rbind] in H. constructor; [|now apply (IH acc' t)].
  unfold Py.add, Py.binop in Eadd.
  destruct (as_num acc); [|discriminate].
  destruct (as_num (Py.or (lookup_or d "userSpent" (VInt 0)) (VInt 0)))
    as [u|] eqn:Eu; [|discriminate].
  now exists d, u.
Qed.

(** A round of the loop that returns was given an object with a numeric
    base price. *)
Lemma category_step_item (out : console) (request_tv : pyval) (st st' : pyval * bool)
      (v : pyval) (w w' : world) :
  category_step out request_tv st v w = (Ok st', w') ->
  exists d b, v = VDict d /\ read_field d "basePrice" = Some b.
Proof.
  destruct st as [personal_cpi flag]. unfold category_step.
  destruct v as [| | | | | |d];
    try (rewrite bind_lift; cbn [field_or_0 Py.get rbind]; discriminate).
  rewrite bind_lift, field_or_0_dict, bind_lift, field_or_0_dict, bind_lift.
  unfold Py.gt0 at 1. unfold read_field.
  destruct (as_num (Py.or (lookup_or d "basePrice" (VInt 0)) (VInt 0)))
    as [b|] eqn:Eb; [|discriminate].
  intros _. now exists d, b.
Qed.

Lemma for_each_category_items (out : console) (request_tv : pyval) (items : list pyval) :
  forall st st' w w',
    for_each (category_step out request_tv) st items w = (Ok st', w') ->
    Forall (fun v => exists d b, v = VDict d /\ read_field d "basePrice" = Some b)
           items.
Proof.
  induction items as [|v items IH]; intros st st' w w' H; [constructor|].
  cbn [for_each] in H. unfold bind in H.
  destruct (category_step out request_tv st v w) as [[st1|e] w1] eqn:E;
    [|discriminate].
  constructor.
  - exact (category_step_item _ _ _ _ _ _ _ E).
  - exact (IH _ _ _ _ H).
Qed.

Lemma as_categories_items (items : list pyval) :
  Forall (fun v => exists d u, v = VDict d /\ read_field d "userSpent" = Some u)
         items ->
  Forall (fun v => exists d b, v = VDict d /\ read_field d "basePrice" = Some b)
         items ->
  exists cs, as_categories items = Some cs.
Proof.
  induction items as [|v items IH]; intros Hu Hb; [now exists []|].
  inversion Hu as [|? ? (d & u & -> & Eu) Hu']; subst.
  inversion Hb as [|? ? (d' & b & Ed & Eb) Hb']; subst.
  injection Ed as <-.
  destruct (IH Hu' Hb') as (cs & Hcs).
  cbn [as_categories as_category]. rewrite Eu, Eb, Hcs. eauto.
Qed.

Lemma success_not_failure (request_id personal_cpi : pyval) :
  success request_id personal_cpi <> failure request_id.
Proof. unfold success, failure. congruence. Qed.

(** The calculation succeeds only on a list of well-formed categories. *)
Lemma calculate_index_success (out : console) (request_id categories : pyval)
      (w : world) (personal_cpi : pyval) :
  fst (calculate_index out request_id categories w)
  = Ok (success request_id personal_cpi) ->
  exists l cs, categories = VList l /\ as_categories l = Some cs.
Proof.
  unfold calculate_index.
  destruct (negb (Py.truthy categories)) eqn:Et.
  { rewrite bind_print. destruct (forallb _ _); [|discriminate].
    cbn [ret fst]. unfold success, failure. congruence. }
  destruct (Py.iter categories) as [items|e] eqn:Ei;
    rewrite bind_lift; [|discriminate].
  destruct (sum_user_spent (VInt 0) items) as [total|e] eqn:Es;
    rewrite bind_lift; [|discriminate].
  rewrite bind_print. destruct (forallb _ _); [|discriminate].
  destruct (Py.eq0 total).
  { rewrite bind_print. destruct (forallb _ _); [|discriminate].
    cbn [ret fst]. unfold success, failure. congruence. }
  unfold bind at 1.
  destruct (for_each (category_step out total) (VFloat F64.zero, false)
              items _) as [[st|e] w1] eqn:El; [|discriminate].
  intros _.
  apply sum_user_spent_items in Es. apply for_each_category_items in El.
  destruct categories as [| | | |s|l|d]; try discriminate.
  - destruct s as [|c s]; [discriminate|].
    injection Ei as <-. cbn [Py.chars] in Es.
    inversion Es as [|? ? (d & u & E & _) _]. discriminate.
  - injection Ei as <-. destruct (as_categories_items l Es El) as (cs & Hcs).
    eauto.
  - destruct d as [|kv d]; [discriminate|].
    injection Ei as <-. cbn [map] in Es.
    inversion Es as [|? ? (d' & u & E & _) _]. discriminate.
Qed.

Lemma index_calculator_success (out : console)
      (request_id payload personal_cpi : pyval) :
  run (index_calculator out request_id payload)
  = Ok (success request_id personal_cpi) ->
  exists d, as_request_data payload = Some d.
Proof.
  unfold run, index_calculator.
  destruct payload as [| | | | | |kv];
    try (rewrite bind_lift; cbn [Py.get]; discriminate).
  rewrite bind_lift, get_dict, bind_lift, get_dict, bind_lift.
  destruct (Py.len (lookup_or kv "categories" (VList []))) as [n|e];
    [|discriminate].
  rewrite bind_print. destruct (forallb _ _); [|discriminate]. intros H.
  apply calculate_index_success in H as (l & cs & El & Hcs).
  cbn [as_request_data]. rewrite El, Hcs. eauto.
Qed.

Lemma outcome_success (request_id : pyval) (d : RequestData) (v : pyval) :
  Spec.outcome request_id d = Ok v ->
  v <> failure request_id ->
  exists t f,
    Spec.totalSpent d = Ok t /\ Num.eq0 t = false
    /\ existsb Spec.valid (categories d) = true
    /\ Spec.personalIndex d t = Ok f
    /\ v = success request_id (VFloat f).
Proof.
  unfold Spec.outcome. intros H Hv.
  destruct (categories d) as [|c cs] eqn:Ec.
  { injection H as <-. now destruct Hv. }
  destruct (Spec.totalSpent d) as [t|e] eqn:Et; cbn [rbind] in H; [|discriminate].
  destruct (Num.eq0 t) eqn:Ez.
  { injection H as <-. now destruct Hv. }
  destruct (Spec.personalIndex d t) as [f|e] eqn:Ef; cbn [rbind] in H;
    [|discriminate].
  destruct (existsb Spec.valid (c :: cs)) eqn:Ev.
  - injection H as <-. exists t, f. repeat split; auto.
  - injection H as <-. now destruct Hv.
Qed.

(** X9: The task body returns success=true with personalCPI = [f] exactly
    when the fetch answered 200 with well-formed RequestData whose
    totalSpent is not 0, which has a category with basePrice > 0 and
    userSpent > 0, whose formula evaluates to [f], and of which the
    values printed on the way (the request identifier, comparisonDate,
    totalSpent and the ids of those categories) can be printed.  In
    particular a negative totalSpent does not stop the calculation, and
    success is never reported for data that is not well formed. *)
Theorem success_characterised (out : console) (request_id : pyval)
        (net : network) (w : world) (f : F64.float) :
  fst (calculate_personal_cpi out request_id net w)
  = Ok (success request_id (VFloat f))
  <-> exists payload d t,
      fetched net request_id payload
      /\ as_request_data payload = Some d
      /\ printable out request_id d
      /\ Spec.totalSpent d = Ok t
      /\ Num.eq0 t = false
      /\ existsb Spec.valid (categories d) = true
      /\ Spec.personalIndex d t = Ok f.
Proof.
  split.
  - rewrite run_calculate_personal_cpi.
    destruct (showable out request_id); [|discriminate].
    unfold caught, fetch_outcome.
    assert (N : forall e, (if is_Exception e then Ok (failure request_id)
                           else Raise e)
                          <> Ok (success request_id (VFloat f))).
    { intros e. unfold success, failure.
      destruct (is_Exception e); congruence. }
    destruct (on_get net (data_url request_id)) as [r|e] eqn:Hget;
      [|intros H; now apply N in H].
    destruct (Z.eqb_spec (status_code r) 200) as [Hst|_].
    2:{ destruct (showable out (VStr (text r))); cbn [is_Exception];
          unfold success, failure; congruence. }
    destruct (json r) as [payload|e] eqn:Hjson; [|intros H; now apply N in H].
    destruct (run (index_calculator out request_id payload)) as [v|e] eqn:Hrun;
      [|intros H; now apply N in H].
    intros H. injection H as ->.
    destruct (index_calculator_success _ _ _ _ Hrun) as (d & Hd).
    rewrite (index_calculator_spec out request_id payload d Hd) in Hrun.
    pose proof (printed_outcome_success _ _ _ _ Hrun (success_not_failure _ _))
      as Hp.
    apply printed_outcome_ok in Hrun.
    destruct (outcome_success _ _ _ Hrun (success_not_failure _ _))
      as (t & f' & Ht & Hz & Hv & Hf & E).
    injection E as <-.
    exists payload, d, t. repeat split; auto; try apply Hp. now exists r.
  - intros (payload & [cs cd] & t & Hf & Hd & Hp & Ht & Hz & Hv & Hidx).
    rewrite (calculate_personal_cpi_spec _ _ _ _ _ w Hf Hd Hp).
    unfold Spec.outcome. cbn [categories] in *.
    destruct cs as [|c cs]; [discriminate|].
    rewrite Ht. cbn [rbind]. rewrite Hz, Hidx. cbn [rbind]. now rewrite Hv.
Qed.

Lemma success_characterised_witness :
  fst (calculate_personal_cpi utf8_stdout (VInt 7) (serving single_category) [])
  = Ok (success (VInt 7) (VFloat (F64.of_Z 50))).
Proof.
  apply (proj2 (success_characterised utf8_stdout (VInt 7)
                  (serving single_category) [] (F64.of_Z 50))).
  exists single_category,
    {| categories :=
         [{| cat_id := VInt 1; userSpent := NInt 150; basePrice := NInt 100 |}];
       comparisonDate := VStr "2024-01-01" |},
    (NInt 150).
  split; [apply fetched_serving|].
  split; [reflexivity|].
  split; [show_printable|].
  repeat split; vm_compute; reflexivity.
Defined.

(** X10: A response with status 200 to a task that can print its
    identifier, whose body does not decode, or decodes to something that
    is not well-formed RequestData (not an object, [categories] that is
    null or not a list, an item that is not an object, a spend or base
    price that is not a number), gives the failure record. *)
Theorem malformed_data_fails :
  (forall (out : console) (request_id : pyval) (net : network) (w : world)
          (r : response) (e : pyexc),
      showable out request_id = true ->
      on_get net (data_url request_id) = Ok r ->
      status_code r = 200 ->
      json r = Raise e ->
      is_Exception e = true ->
      fst (calculate_personal_cpi out request_id net w) = Ok (failure request_id))
  /\ (forall (out : console) (request_id : pyval) (net : network) (w : world)
             (payload : pyval),
         showable out request_id = true ->
         fetched net request_id payload ->
         as_request_data payload = None ->
         fst (calculate_personal_cpi out request_id net w)
         = Ok (failure request_id)).
Proof.
  split.
  - intros out request_id net w r e Hid Hget Hst Hjson He.
    rewrite run_calculate_personal_cpi, Hid. unfold caught, fetch_outcome.
    rewrite Hget, Hst, Hjson. cbn [Z.eqb Pos.eqb]. now rewrite He.
  - intros out request_id net w payload Hid (r & Hget & Hst & Hjson) Hd.
    rewrite run_calculate_personal_cpi, Hid. unfold caught, fetch_outcome.
    rewrite Hget, Hst, Hjson. cbn [Z.eqb Pos.eqb].
    destruct (run (index_calculator out request_id payload)) as [v|e] eqn:Hrun.
    + destruct (index_calculator_returns _ _ _ _ Hrun) as [->|[f ->]];
        [reflexivity|].
      destruct (index_calculator_success _ _ _ _ Hrun) as (d & Hd').
      congruence.
    + now rewrite (index_calculator_raises _ _ _ _ Hrun).
Qed.

Lemma malformed_data_fails_witness :
  fst (calculate_personal_cpi utf8_stdout (VInt 7) (serving null_categories) [])
  = Ok (failure (VInt 7)).
Proof.
  apply (proj2 malformed_data_fails utf8_stdout (VInt 7)
           (serving null_categories) [] null_categories).
  - reflexivity.
  - apply fetched_serving.
  - reflexivity.
Defined.

(* ================================================================== *)
(** ** Only the numbers of the categories count *)

Lemma numbers_agree (cs1 : list CategoryRecord) :
  forall cs2,
    map numbers cs1 = map numbers cs2 ->
    map userSpent cs1 = map userSpent cs2
    /\ existsb Spec.valid cs1 = existsb Spec.valid cs2
    /\ forall t acc,
        Spec.sigma t acc (filter Spec.valid cs1)
        = Spec.sigma t acc (filter Spec.valid cs2).
Proof.
  induction cs1 as [|c1 cs1 IH]; intros [|c2 cs2] H; try discriminate.
  - repeat split.
  - cbn [map numbers] in H. injection H as Eu Eb H.
    destruct (IH cs2 H) as (Hu & Hv & Hs).
    assert (Ev : Spec.valid c1 = Spec.valid c2).
    { unfold Spec.valid. now rewrite Eu, Eb. }
    assert (Ec : forall t, Spec.contribution t c1 = Spec.contribution t c2).
    { intros t. unfold Spec.contribution, Spec.weight, Spec.change.
      now rewrite Eu, Eb. }
    split; [|split].
    + cbn [map]. now rewrite Eu, Hu.
    + cbn [existsb]. now rewrite Ev, Hv.
    + intros t acc. cbn [filter]. rewrite Ev.
      destruct (Spec.valid c2); [|apply Hs].
      cbn [Spec.sigma]. rewrite Ec.
      destruct (Spec.contribution t c2); cbn [rbind]; [apply Hs|reflexivity].
Qed.

(** X11: Two fetched payloads whose categories carry, in the same order, the
    same spends and base prices give the same outcome: category ids, the
    other fields of a category and of the payload have no influence, as
    long as those that are printed (comparisonDate and the ids of the
    categories with basePrice > 0 and userSpent > 0) can be printed. *)
Theorem outcome_depends_on_numbers (out : console) (request_id : pyval)
        (net1 net2 : network) (w1 w2 : world) (payload1 payload2 : pyval)
        (d1 d2 : RequestData) :
  fetched net1 request_id payload1 ->
  fetched net2 request_id payload2 ->
  as_request_data payload1 = Some d1 ->
  as_request_data payload2 = Some d2 ->
  printable out request_id d1 ->
  printable out request_id d2 ->
  map numbers (categories d1) = map numbers (categories d2) ->
  fst (calculate_personal_cpi out request_id net1 w1)
  = fst (calculate_personal_cpi out request_id net2 w2).
Proof.
  intros Hf1 Hf2 Hd1 Hd2 Hp1 Hp2 H.
  rewrite (calculate_personal_cpi_spec _ _ _ _ _ w1 Hf1 Hd1 Hp1).
  rewrite (calculate_personal_cpi_spec _ _ _ _ _ w2 Hf2 Hd2 Hp2).
  destruct (numbers_agree _ _ H) as (Hu & Hv & Hs).
  enough (E : Spec.outcome request_id d1 = Spec.outcome request_id d2)
    by now rewrite E.
  unfold Spec.outcome, Spec.totalSpent, Spec.personalIndex.
  rewrite Hu, Hv.
  destruct (categories d1) as [|c1 cs1], (categories d2) as [|c2 cs2];
    try discriminate; [reflexivity|].
  destruct (Spec.sum_from (NInt 0) (map userSpent (c2 :: cs2))) as [t|e];
    cbn [rbind]; [|reflexivity].
  now rewrite Hs.
Qed.

Lemma outcome_depends_on_numbers_witness :
  fst (calculate_personal_cpi utf8_stdout (VInt 7)
         (serving (body_of [category (VInt 1) (VInt 150) (VInt 100)] "2024-01-01")) [])
  = fst (calculate_personal_cpi utf8_stdout (VInt 7)
           (serving (VDict [("categories",
                             VList [VDict [("basePrice", VInt 100);
                                           ("name", VStr "food");
                                           ("userSpent", VInt 150)]])])) []).
Proof.
  apply (outcome_depends_on_numbers utf8_stdout (VInt 7) _ _ [] []
           (body_of [category (VInt 1) (VInt 150) (VInt 100)] "2024-01-01")
           (VDict [("categories",
                    VList [VDict [("basePrice", VInt 100);
                                  ("name", VStr "food");
                                  ("userSpent", VInt 150)]])])
           {| categories :=
                [{| cat_id := VInt 1; userSpent := NInt 150; basePrice := NInt 100 |}];
              comparisonDate := VStr "2024-01-01" |}
           {| categories :=
                [{| cat_id := VNone; userSpent := NInt 150; basePrice := NInt 100 |}];
              comparisonDate := VNone |}).
  - apply fetched_serving.
  - apply fetched_serving.
  - reflexivity.
  - reflexivity.
  - show_printable.
  - show_printable.
  - reflexivity.
Defined.

(* ================================================================== *)
(** ** Unchanged prices *)

Section Rounding.

Variables prec emax : Z.

Lemma shr_1_nonneg (mrs : shr_record) :
  0 <= shr_m mrs -> 0 <= shr_m (shr_1 mrs).
Proof.
  destruct mrs as [m r s]. destruct m as [|[p|p|]|[p|p|]]; simpl; lia.
Qed.

Lemma iter_shr_1_nonneg (p : positive) :
  forall mrs, 0 <= shr_m mrs -> 0 <= shr_m (iter_pos shr_1 p mrs).
Proof.
  induction p as [p IH|p IH|]; intros mrs H; cbn [iter_pos].
  - apply IH, IH, shr_1_nonneg, H.
  - apply IH, IH, H.
  - apply shr_1_nonneg, H.
Qed.

Lemma shr_fexp_nonneg (m e : Z) (l : location) :
  0 <= m -> 0 <= shr_m (fst (shr_fexp prec emax m e l)).
Proof.
  intros H. unfold shr_fexp, shr.
  assert (H0 : 0 <= shr_m (shr_record_of_loc m l)).
  { destruct l as [|[| |]]; exact H. }
  destruct (fexp prec emax (Zdigits2 m + e) - e) as [|p|p]; cbn [fst];
    auto using iter_shr_1_nonneg.
Qed.

Lemma round_nearest_even_nonneg (m : Z) (l : location) :
  0 <= m -> 0 <= round_nearest_even m l.
Proof.
  intros H. destruct l as [|[| |]]; cbn [round_nearest_even]; try lia.
  destruct (Z.even m); lia.
Qed.

(** Rounding a non-negative mantissa never gives NaN. *)
Lemma binary_round_aux_not_nan (s : bool) (m e : Z) (l : location) :
  0 <= m -> binary_round_aux prec emax s m e l <> S754_nan.
Proof.
  intros H. unfold binary_round_aux.
  pose proof (shr_fexp_nonneg m e l H) as H1.
  destruct (shr_fexp prec emax m e l) as [mrs' e']. cbn [fst] in H1.
  pose proof (shr_fexp_nonneg
                (round_nearest_even (shr_m mrs') (loc_of_shr_record mrs'))
                e' loc_Exact (round_nearest_even_nonneg _ _ H1)) as H2.
  destruct (shr_fexp prec emax _ e' loc_Exact) as [mrs'' e'']. cbn [fst] in H2.
  destruct (shr_m mrs'') as [|p|p]; [discriminate| |lia].
  destruct (e'' <=? emax - prec); discriminate.
Qed.

End Rounding.

(** The quotient of a positive integer by a non-zero integer is a number. *)
Lemma div_Z_not_nan (u t : Z) : 0 < u -> t <> 0 -> F64.div_Z u t <> S754_nan.
Proof.
  intros Hu Ht. unfold F64.div_Z, F64.exact, SFdiv.
  destruct u as [|pu|pu]; try lia.
  assert (G : forall st pt,
             (let '(mz, ez, lz) :=
                SFdiv_core_binary F64.prec F64.emax (Zpos pu) 0 (Zpos pt) 0 in
              binary_round_aux F64.prec F64.emax (xorb false st) mz ez lz)
             <> S754_nan).
  { intros st pt. unfold SFdiv_core_binary.
    set (s := 0 - 0 - _).
    set (m' := match s with Zpos _ => Z.shiftl (Zpos pu) s | Z0 => Zpos pu
                       | Zneg _ => 0 end).
    assert (Hm : 0 <= m').
    { subst m'. destruct s; try lia. apply Z.shiftl_nonneg. lia. }
    destruct (Z.div_eucl m' (Zpos pt)) as [q r] eqn:E.
    apply binary_round_aux_not_nan.
    assert (Hq : q = m' / Zpos pt) by (unfold Z.div; now rewrite E).
    subst q. apply Z.div_pos; lia. }
  destruct t as [|pt|pt]; [lia|apply G|apply G].
Qed.

Lemma sum_from_ints (l : list pynum) :
  forall acc t,
    is_int acc -> Forall is_int l -> Spec.sum_from acc l = Ok t -> is_int t.
Proof.
  induction l as [|x l IH]; intros acc t Hacc Hl H; cbn [Spec.sum_from] in H.
  - now injection H as <-.
  - inversion Hl as [|? ? Hx Hl']; subst.
    destruct acc as [a|a], x as [b|b]; try contradiction.
    cbn [Num.add Num.arith rbind] in H. now apply (IH (NInt (a + b)) t).
Qed.

(** With integers, a category spent on at its base price contributes a
    zero. *)
Lemma unchanged_contribution (t : pynum) (c : CategoryRecord) (x : F64.float) :
  is_int t -> Num.eq0 t = false ->
  is_int (userSpent c) ->
  Spec.valid c = true ->
  userSpent c = basePrice c ->
  Spec.contribution t c = Ok x ->
  exists s, x = S754_zero s.
Proof.
  intros Ht Hz Hu Hv He. unfold Spec.valid in Hv.
  apply andb_true_iff in Hv as [_ Hpos].
  unfold Spec.contribution, Spec.weight, Spec.change. rewrite <- He.
  destruct t as [tz|]; [|contradiction].
  destruct (userSpent c) as [u|]; [|contradiction].
  cbn [Num.eq0] in Hz. cbn [Num.gt0] in Hpos. apply Z.ltb_lt in Hpos.
  cbn [Num.truediv Num.sub Num.arith rbind]. rewrite Hz, Z.sub_diag.
  pose proof (div_Z_not_nan u tz Hpos (proj1 (Z.eqb_neq _ _) Hz)) as Hnan.
  destruct (F64.div_Z u tz) as [s|s| |s m e] eqn:Eq; cbn [F64.is_inf rbind];
    try discriminate; [| now destruct Hnan |].
  - destruct u as [|pu|pu]; try lia. cbn.
    intros H. injection H as <-. eauto.
  - destruct u as [|pu|pu]; try lia. cbn.
    intros H. injection H as <-. eauto.
Qed.

Lemma unchanged_sigma (t : pynum) (cs : list CategoryRecord) :
  is_int t -> Num.eq0 t = false ->
  Forall (fun c => is_int (userSpent c) /\ is_int (basePrice c)) cs ->
  Forall (fun c => Spec.valid c = true -> userSpent c = basePrice c) cs ->
  forall x,
    Spec.sigma t (S754_zero false) (filter Spec.valid cs) = Ok x ->
    x = S754_zero false.
Proof.
  intros Ht Hz Hint. induction Hint as [|c cs [Hu _] _ IH]; intros Hun x H.
  - now injection H as <-.
  - inversion Hun as [|? ? Hc Hun']; subst.
    cbn [filter] in H. destruct (Spec.valid c) eqn:Hv; [|now apply IH].
    cbn [Spec.sigma] in H.
    destruct (Spec.contribution t c) as [y|e] eqn:Ec; [|discriminate].
    cbn [rbind] in H.
    destruct (unchanged_contribution t c y Ht Hz Hu Hv (Hc eq_refl) Ec)
      as (s & ->).
    apply IH; [exact Hun'|]. destruct s; exact H.
Qed.

(** X12: For integer data in which every category with basePrice > 0 and
    userSpent > 0 has userSpent = basePrice, a reported success carries
    the index 0.0. *)
Theorem unchanged_prices_give_zero (out : console) (request_id : pyval)
        (net : network) (w : world) (payload : pyval) (d : RequestData)
        (f : F64.float) :
  fetched net request_id payload ->
  as_request_data payload = Some d ->
  int_data d ->
  prices_unchanged d ->
  fst (calculate_personal_cpi out request_id net w)
  = Ok (success request_id (VFloat f)) ->
  f = F64.zero.
Proof.
  intros Hf Hd Hint Hun H.
  destruct (calculate_personal_cpi_outcome _ _ _ _ _ _ _ Hf Hd H) as [E|Ho].
  { now apply success_not_failure in E. }
  destruct (outcome_success _ _ _ Ho (success_not_failure _ _))
    as (t & f' & Ht & Hz & _ & Hidx & E).
  injection E as <-.
  assert (Hti : is_int t).
  { unfold Spec.totalSpent in Ht.
    apply (sum_from_ints (map userSpent (categories d)) (NInt 0) t);
      [exact I| |exact Ht].
    apply Forall_map. eapply Forall_impl; [|exact Hint]. now intros c [Hu _]. }
  unfold Spec.personalIndex in Hidx.
  destruct (Spec.sigma t F64.zero (filter Spec.valid (categories d)))
    as [s|e] eqn:Es; [|discriminate].
  cbn [rbind] in Hidx. injection Hidx as <-.
  rewrite (unchanged_sigma t (categories d) Hti Hz Hint Hun s Es).
  reflexivity.
Qed.

Lemma unchanged_prices_give_zero_witness :
  fst (calculate_personal_cpi utf8_stdout (VInt 7)
         (serving (body_of [category (VInt 1) (VInt 120) (VInt 120);
                            category (VInt 2) (VInt 30) (VInt 0)] "2024-01-01"))
         [])
  = Ok (success (VInt 7) (VFloat F64.zero))
  /\ F64.zero = F64.zero.
Proof.
  split; [vm_compute; reflexivity|].
  apply (unchanged_prices_give_zero utf8_stdout (VInt 7)
           (serving (body_of [category (VInt 1) (VInt 120) (VInt 120);
                              category (VInt 2) (VInt 30) (VInt 0)] "2024-01-01"))
           []
           (body_of [category (VInt 1) (VInt 120) (VInt 120);
                     category (VInt 2) (VInt 30) (VInt 0)] "2024-01-01")
           {| categories :=
                [{| cat_id := VInt 1; userSpent := NInt 120; basePrice := NInt 120 |};
                 {| cat_id := VInt 2; userSpent := NInt 30; basePrice := NInt 0 |}];
              comparisonDate := VStr "2024-01-01" |}
           F64.zero).
  - apply fetched_serving.
  - reflexivity.
  - repeat constructor.
  - constructor; [reflexivity|]. constructor; [discriminate|constructor].
  - vm_compute. reflexivity.
Defined.

(* ================================================================== *)
(** ** What the endpoint always does, and what the task never catches *)

(** X13: The view answers every request and lets no exception through: the
    answer is 200 with the CORS headers (for [OPTIONS], and for a started
    task), or 400, 401 or 500 with no header set. *)
Theorem trigger_always_answered (out : console) (req : request) (s : server) :
  exists resp s',
    process_request out req s = (Ok resp, s')
    /\ ((status resp = 200
         /\ (response_headers resp = cors_headers
             \/ response_headers resp = preflight_headers))
        \/ ((status resp = 400 \/ status resp = 401 \/ status resp = 500)
            /\ response_headers resp = [])).
Proof.
  view_unfold. destruct (method req).
  2:{ do 2 eexists. split; [reflexivity|]. left. cbn. auto. }
  rewrite !andb_true_r.
  destruct (showable out (data req)); cbn [is_Exception].
  2:{ do 2 eexists. split; [reflexivity|]. right. cbn. auto. }
  destruct (showable out (VStr (content_type req))); cbn [is_Exception].
  2:{ do 2 eexists. split; [reflexivity|]. right. cbn. auto. }
  destruct (Py.truthy (data req)); cbn [negb fst snd].
  2:{ do 2 eexists. split; [reflexivity|]. right. cbn. auto. }
  destruct (data req) as [| | | | | |d];
    try (cbn [keys rbind is_Exception]; do 2 eexists;
         split; [reflexivity|]; right; cbn; auto).
  cbn [keys rbind]. rewrite !contains_lookup.
  destruct (Py.lookup "pk" d) as [pk|] eqn:Hpk; cbv beta iota; cbn [negb orb].
  2:{ do 2 eexists. split; [reflexivity|]. right. cbn. auto. }
  cbn [keys rbind]. rewrite ?contains_lookup.
  destruct (Py.lookup "token" d) as [tok|] eqn:Htok; cbv beta iota; cbn [negb orb].
  2:{ do 2 eexists. split; [reflexivity|]. right. cbn. auto. }
  cbn [Py.getitem]. rewrite Hpk, Htok.
  destruct (differs tok AUTH_TOKEN).
  - do 2 eexists. split; [reflexivity|]. right. cbn. auto.
  - cbn [submitted stdout]. destruct (showable out pk); cbn [is_Exception].
    + do 2 eexists. split; [reflexivity|]. left. cbn. auto.
    + do 2 eexists. split; [reflexivity|]. right. cbn. auto.
Qed.

(** X14: An exception of the fetch that does not derive from [Exception]
    (such as [KeyboardInterrupt] or [SystemExit]) is caught neither by the
    task body nor by the callback: the task raises it, and no report call
    is made. *)
Theorem base_exception_not_reported (out : console) (request_id : pyval)
        (net : network) (w : world) (e : pyexc) :
  showable out request_id = true ->
  on_get net (data_url request_id) = Raise e ->
  is_Exception e = false ->
  fst (calculate_personal_cpi out request_id net w) = Raise e
  /\ fst (run_task out net request_id w) = Raise e
  /\ reports (snd (run_task out net request_id w)) = reports w.
Proof.
  intros Hid Hget He.
  assert (Hc : fst (calculate_personal_cpi out request_id net w) = Raise e).
  { rewrite run_calculate_personal_cpi, Hid. unfold caught, fetch_outcome.
    now rewrite Hget, He. }
  split; [exact Hc|]. unfold run_task.
  destruct (writes_world _ (writes_calculate_personal_cpi out request_id net))
    as (evs & Hevs & Hw).
  specialize (Hw w).
  destruct (calculate_personal_cpi out request_id net w) as [r w1].
  cbn [fst snd] in Hc, Hw. subst r w1.
  callback_unfold. cbn [future_result].
  destruct e; try discriminate; cbn [is_CancelledError is_Exception fst snd];
    (split; [reflexivity|]);
    now rewrite reports_app, (reports_no_report _ Hevs), app_nil_r.
Qed.

Lemma base_exception_not_reported_witness :
  fst (calculate_personal_cpi utf8_stdout (VInt 7)
         {| on_get := fun _ => Raise KeyboardInterrupt;
            on_put := fun _ _ => reply 200 (Raise ValueError) |} [])
  = Raise KeyboardInterrupt
  /\ fst (run_task utf8_stdout
            {| on_get := fun _ => Raise KeyboardInterrupt;
               on_put := fun _ _ => reply 200 (Raise ValueError) |}
            (VInt 7) []) = Raise KeyboardInterrupt
  /\ reports (snd (run_task utf8_stdout
                     {| on_get := fun _ => Raise KeyboardInterrupt;
                        on_put := fun _ _ => reply 200 (Raise ValueError) |}
                     (VInt 7) [])) = reports [].
Proof.
  apply (base_exception_not_reported utf8_stdout (VInt 7)
           {| on_get := fun _ => Raise KeyboardInterrupt;
              on_put := fun _ _ => reply 200 (Raise ValueError) |} []
           KeyboardInterrupt); reflexivity.
Defined.
